(** * zps_compilador: the ZPS141 reconciliation pipeline

    A shallow embedding of [src/zps_compilador.py].  The script keeps a
    cumulative spreadsheet (BANCO.xlsx) up to date: it picks the most recent
    "BUSCA ZPS141 - DD.MM.AAAA" file by the date in its name, prunes the
    BANCO rows whose column N does not start with "Y", appends the block
    B6:AJ of the daily file, removes duplicates ignoring columns A, C, D, U
    and saves the result.

    Modelling conventions.
    - A Python [str] is a Rocq [string]; each [ascii] stands for one code
      point below 256.
    - A spreadsheet cell read by [pd.read_excel(..., header=None)] is a
      missing value (NaN / pd.NA), a text or an integer ([Cell]).
    - A [pandas.DataFrame] is a list of integer column labels and a list of
      rows; the row index is not modelled, since every frame the script
      builds is either sliced positionally or rebuilt with
      [ignore_index=True].
    - Exceptions are values of [Exception]; the effects of [main] (the
      upload and the timestamp write) are recorded in a trace. *)

From Stdlib Require Import String Ascii DecimalString Bool Arith ZArith Lia List.
From Stdlib Require Import Permutation.
Import ListNotations.
Local Open Scope string_scope.
Local Open Scope list_scope.
Local Open Scope nat_scope.

(** ** Python strings *)

Module PyStr.

(** [s[n:]] *)
Fixpoint drop (n : nat) (s : string) : string :=
  match n, s with
  | O, _ => s
  | S _, EmptyString => EmptyString
  | S n', String _ s' => drop n' s'
  end.

(** [s[:n]] *)
Fixpoint take (n : nat) (s : string) : string :=
  match n, s with
  | O, _ => EmptyString
  | S _, EmptyString => EmptyString
  | S n', String c s' => String c (take n' s')
  end.

(** [s.startswith(p)] *)
Definition startswith (s p : string) : bool := String.prefix p s.

(** [c.isspace()] for a code point below 256: TAB..CR, FS..US, SPACE,
    NEL and NBSP. *)
Definition isspace (c : ascii) : bool :=
  let n := nat_of_ascii c in
  ((9 <=? n) && (n <=? 13)) || ((28 <=? n) && (n <=? 32))
  || (n =? 133) || (n =? 160).

Fixpoint lstrip (s : string) : string :=
  match s with
  | EmptyString => EmptyString
  | String c s' => if isspace c then lstrip s' else s
  end.

(** Trailing white space goes when everything after a character is
    white space. *)
Fixpoint rstrip (s : string) : string :=
  match s with
  | EmptyString => EmptyString
  | String c s' =>
      match rstrip s' with
      | EmptyString => if isspace c then EmptyString else String c EmptyString
      | t => String c t
      end
  end.

(** [s.strip()] *)
Definition strip (s : string) : string := rstrip (lstrip s).

(** [str(n)] for an integer. *)
Definition of_int (n : Z) : string := NilZero.string_of_int (Z.to_int n).

End PyStr.

(** ** Cells and frames *)

Inductive Cell : Type :=
| NA
| Text (s : string)
| Num (n : Z).

Definition Cell_eq_dec (a b : Cell) : {a = b} + {a <> b}.
Proof. decide equality; [apply string_dec | apply Z.eq_dec]. Defined.

(** Cells compare by value, as [drop_duplicates] compares them: two absent
    cells are equal, a text equals the same text, a number the same number,
    and a text never equals a number.  [Series.isna()] on one cell: *)
Definition isna (c : Cell) : bool :=
  match c with NA => true | _ => false end.

(** [Series.astype(str)] on one cell: a missing value becomes the text
    "nan". *)
Definition astype_str (c : Cell) : string :=
  match c with
  | NA => "nan"
  | Text s => s
  | Num n => PyStr.of_int n
  end.

Abbreviation Row := (list Cell).

Record DataFrame : Type := mkDF {
  columns : list nat;
  values : list Row
}.

(** [df.shape[0]], also [len(df)], and [df.shape[1]]. *)
Definition shape0 (df : DataFrame) : nat := length (values df).
Definition shape1 (df : DataFrame) : nat := length (columns df).

(** [df.empty]: some axis has length 0. *)
Definition empty (df : DataFrame) : bool :=
  (shape0 df =? 0) || (shape1 df =? 0).

(** Every row is as wide as the frame. *)
Definition rectangular (df : DataFrame) : Prop :=
  Forall (fun r => length r = shape1 df) (values df).

(** What [pd.read_excel(..., header=None)] returns: columns labelled
    0, 1, ..., and every row as wide as the frame. *)
Definition grid (df : DataFrame) : Prop :=
  columns df = seq 0 (shape1 df) /\ rectangular df.

(** A frame as the operations leave it: distinct labels, rows as wide as
    the frame. *)
Definition wf (df : DataFrame) : Prop :=
  NoDup (columns df) /\ rectangular df.

(** [df.iloc[:k, :]] and [df.iloc[k:, :]] *)
Definition iloc_head (k : nat) (df : DataFrame) : DataFrame :=
  mkDF (columns df) (firstn k (values df)).
Definition iloc_tail (k : nat) (df : DataFrame) : DataFrame :=
  mkDF (columns df) (skipn k (values df)).

Inductive Exception : Type :=
| RuntimeError (msg : string)
| IndexError
| ValueError.

Definition Result (A : Type) : Type := (Exception + A)%type.

(** [df.iloc[:, j]]: the cells of the column at position [j]; out of range
    is an IndexError. *)
Definition iloc_col (j : nat) (df : DataFrame) : Result (list Cell) :=
  if j <? shape1 df then inr (map (fun r => nth j r NA) (values df))
  else inl IndexError.

(** [df[mask]] with a boolean mask over the rows. *)
Fixpoint boolean_index (rows : list Row) (mask : list bool) : list Row :=
  match rows, mask with
  | r :: rows', b :: mask' =>
      if b then r :: boolean_index rows' mask' else boolean_index rows' mask'
  | _, _ => []
  end.

(** Position of a label in a list of labels. *)
Fixpoint index_of (c : nat) (cs : list nat) : option nat :=
  match cs with
  | [] => None
  | c' :: cs' => if c =? c' then Some 0 else option_map S (index_of c cs')
  end.

Definition has_label (cs : list nat) (c : nat) : bool := existsb (Nat.eqb c) cs.

(** The column axis of [pd.concat([a, b])]: the outer join of the labels,
    unsorted: those of [a], then those of [b] that [a] lacks. *)
Definition union_columns (a b : list nat) : list nat :=
  a ++ filter (fun c => negb (has_label a c)) b.

(** A row of a frame with labels [cs] laid out under the labels [cols]; a
    label the frame lacks gives a missing value. *)
Definition reindex (cs cols : list nat) (r : Row) : Row :=
  map (fun c => match index_of c cs with
                | Some i => nth i r NA
                | None => NA
                end) cols.

(** [pd.concat([a, b], ignore_index=True)] *)
Definition concat (a b : DataFrame) : DataFrame :=
  let cols := union_columns (columns a) (columns b) in
  mkDF cols (map (reindex (columns a) cols) (values a)
             ++ map (reindex (columns b) cols) (values b)).

(** [df[label] = value] with a scalar: a new label adds a column at the high
    end, an existing label overwrites that column. *)
Fixpoint set_nth (i : nat) (v : Cell) (r : Row) : Row :=
  match i, r with
  | _, [] => []
  | O, _ :: r' => v :: r'
  | S i', c :: r' => c :: set_nth i' v r'
  end.

Definition setitem (label : nat) (v : Cell) (df : DataFrame) : DataFrame :=
  match index_of label (columns df) with
  | Some i => mkDF (columns df) (map (set_nth i v) (values df))
  | None => mkDF (columns df ++ [label]) (map (fun r => r ++ [v]) (values df))
  end.

(** [df.iloc[i:, a:b]] *)
Definition slice {A : Type} (a b : nat) (l : list A) : list A :=
  firstn (b - a) (skipn a l).

Definition iloc_block (i a b : nat) (df : DataFrame) : DataFrame :=
  mkDF (slice a b (columns df)) (map (slice a b) (skipn i (values df))).

(** [df.replace("", pd.NA)] *)
Definition replace_empty (c : Cell) : Cell :=
  match c with
  | Text EmptyString => NA
  | _ => c
  end.

Definition replace (df : DataFrame) : DataFrame :=
  mkDF (columns df) (map (map replace_empty) (values df)).

(** [df.isna().all(axis=1)] on one row. *)
Definition isna_all (r : Row) : bool := forallb isna r.

(** The key of a row under [subset]: its cells at those labels. *)
Definition key_of (cols subset : list nat) (r : Row) : list Cell :=
  reindex cols subset r.

Definition key_eqb (k1 k2 : list Cell) : bool :=
  if list_eq_dec Cell_eq_dec k1 k2 then true else false.

(** [df.duplicated(subset, keep="first")] over the rows, given the keys
    already met. *)
Fixpoint duplicated_from (cols subset : list nat) (seen : list (list Cell))
    (rows : list Row) : list bool :=
  match rows with
  | [] => []
  | r :: rows' =>
      let k := key_of cols subset r in
      if existsb (key_eqb k) seen
      then true :: duplicated_from cols subset seen rows'
      else false :: duplicated_from cols subset (k :: seen) rows'
  end.

Definition duplicated (subset : list nat) (df : DataFrame) : list bool :=
  duplicated_from (columns df) subset [] (values df).

(** The rows [df[~mask]] keeps, given the keys already met. *)
Definition survivors (cols subset : list nat) (seen : list (list Cell))
    (rows : list Row) : list Row :=
  boolean_index rows (map negb (duplicated_from cols subset seen rows)).

(** [df.drop_duplicates(subset=subset, keep="first")], that is
    [df[~df.duplicated(subset)]].  With no column to compare pandas has
    nothing to unpack and raises ValueError. *)
Definition drop_duplicates (subset : list nat) (df : DataFrame)
    : Result DataFrame :=
  match subset with
  | [] => inl ValueError
  | _ => inr (mkDF (columns df) (survivors (columns df) subset [] (values df)))
  end.

(** ** Dates in file names *)

Record datetime : Type := mkDate { year : nat; month : nat; day : nat }.

(** [a > b] on dates. *)
Definition dt_gt (a b : datetime) : bool :=
  (year b <? year a)
  || ((year a =? year b)
      && ((month b <? month a)
          || ((month a =? month b) && (day b <? day a)))).

Module Strptime.

Definition code (c : ascii) : nat := nat_of_ascii c.

Definition between (lo hi : ascii) (c : ascii) : bool :=
  (code lo <=? code c) && (code c <=? code hi).

Definition chr (x : ascii) (c : ascii) : bool := code c =? code x.

(** [\d] *)
Definition digit : ascii -> bool := between "0" "9".

(** A regular-expression piece maps the input to its matches, in the
    order a backtracking matcher tries them: the text matched and the
    rest. *)
Definition Re : Type := string -> list (string * string).

Definition one (p : ascii -> bool) : Re := fun s =>
  match s with
  | String a r => if p a then [(String a EmptyString, r)] else []
  | _ => []
  end.

Definition two (p q : ascii -> bool) : Re := fun s =>
  match s with
  | String a (String b r) =>
      if p a && q b then [(String a (String b EmptyString), r)] else []
  | _ => []
  end.

Definition alt (x y : Re) : Re := fun s => x s ++ y s.

(** [(?P<d>3[0-1]|[1-2]\d|0[1-9]|[1-9]| [1-9])] *)
Definition re_d : Re :=
  alt (two (chr "3") (between "0" "1"))
 (alt (two (between "1" "2") digit)
 (alt (two (chr "0") (between "1" "9"))
 (alt (one (between "1" "9"))
      (two (chr " ") (between "1" "9"))))).

(** [(?P<m>1[0-2]|0[1-9]|[1-9])] *)
Definition re_m : Re :=
  alt (two (chr "1") (between "0" "2"))
 (alt (two (chr "0") (between "1" "9"))
      (one (between "1" "9"))).

(** [(?P<Y>\d\d\d\d)] *)
Definition re_Y : Re := fun s =>
  match s with
  | String a (String b (String c (String d r))) =>
      if digit a && digit b && digit c && digit d
      then [(String a (String b (String c (String d EmptyString))), r)]
      else []
  | _ => []
  end.

(** [\.] *)
Definition dot : Re := one (chr ".").

(** The compiled format "%d.%m.%Y": every way to match a prefix of the
    input, first choice first, with the three groups and the rest. *)
Definition format_regex (s : string)
    : list (string * string * string * string) :=
  flat_map (fun '(d, s1) =>
  flat_map (fun '(_, s2) =>
  flat_map (fun '(m, s3) =>
  flat_map (fun '(_, s4) =>
  map (fun '(y, s5) => (d, m, y, s5)) (re_Y s4))
    (dot s3)) (re_m s2)) (dot s1)) (re_d s).

(** [int(s)] for a group: blanks skipped, digits in base ten. *)
Fixpoint int_acc (acc : nat) (s : string) : nat :=
  match s with
  | EmptyString => acc
  | String c r =>
      if digit c then int_acc (10 * acc + (code c - 48)) r
      else int_acc acc r
  end.
Definition int (s : string) : nat := int_acc 0 s.

Definition is_leap (y : nat) : bool :=
  (y mod 4 =? 0) && (negb (y mod 100 =? 0) || (y mod 400 =? 0)).

Definition days_in_month (y m : nat) : nat :=
  match m with
  | 2 => if is_leap y then 29 else 28
  | 4 | 6 | 9 | 11 => 30
  | _ => 31
  end.

Definition MINYEAR : nat := 1.
Definition MAXYEAR : nat := 9 * 1111.

(** [datetime(y, m, d)], or nothing when that raises ValueError. *)
Definition make_date (y m d : nat) : option datetime :=
  if (MINYEAR <=? y) && (y <=? MAXYEAR) && (1 <=? m) && (m <=? 12)
     && (1 <=? d) && (d <=? days_in_month y m)
  then Some (mkDate y m d) else None.

(** [datetime.strptime(s, "%d.%m.%Y")]; [None] is ValueError: no match,
    unconverted data after the match, or a day the month lacks. *)
Definition strptime (s : string) : option datetime :=
  match format_regex s with
  | [] => None
  | (d, m, y, rest) :: _ =>
      match rest with
      | EmptyString => make_date (int y) (int m) (int d)
      | _ => None
      end
  end.

End Strptime.

(** ** Configuration *)

Definition BANCO_NAME : string := "BANCO.xlsx".
Definition BUSCA_PREFIX : string := "BUSCA ZPS141 - ".
Definition HEADER_ROWS_BANCO : nat := 1.

(** ** Source selection: [encontrar_busca_mais_recente] *)

(** An entry of the Drive listing.  [name] is optional because the code
    reads it with [f.get("name", "")]. *)
Record FileDescriptor : Type := mkFile {
  id : string;
  name : option string;
  modifiedTime : string
}.

Definition get_name (f : FileDescriptor) : string :=
  match name f with Some n => n | None => EmptyString end.

(** The date one pass of the loop reads in the name of [f]; [None] when
    the pass ends in [continue]. *)
Definition data_do_nome (prefixo : string) (f : FileDescriptor)
    : option datetime :=
  let nome := get_name f in
  if negb (PyStr.startswith nome prefixo) then None
  else
    let resto := PyStr.strip (PyStr.drop (String.length prefixo) nome) in
    let data_str := PyStr.take 10 resto in
    Strptime.strptime data_str.

(** The loop state: [mais_recente] and [data_mais_recente]. *)
Definition Recente : Type := (option FileDescriptor * option datetime)%type.

Definition passo (prefixo : string) (st : Recente) (f : FileDescriptor)
    : Recente :=
  match data_do_nome prefixo f with
  | None => st
  | Some dt =>
      match snd st with
      | None => (Some f, Some dt)
      | Some data_mais_recente =>
          if dt_gt dt data_mais_recente then (Some f, Some dt) else st
      end
  end.

Definition encontrar_busca_mais_recente (arquivos : list FileDescriptor)
    (prefixo : string) : option FileDescriptor :=
  fst (fold_left (passo prefixo) arquivos (None, None)).

(** ** The stages of [main] *)

(** The messages are written without their accents. *)
Definition msg_sem_coluna_N : string :=
  "BANCO nao possui coluna N (indice 13). Verifique a estrutura do BANCO.xlsx.".

(** Lines 239-255: keep the header and the data rows whose column N starts
    with "Y"; the second component is [removidas]. *)
Definition limpar_banco (df_banco : DataFrame) : Result (DataFrame * nat) :=
  if shape1 df_banco <=? 13 then inl (RuntimeError msg_sem_coluna_N)
  else
    let header_banco := iloc_head HEADER_ROWS_BANCO df_banco in
    let dados_banco := iloc_tail HEADER_ROWS_BANCO df_banco in
    match iloc_col 13 dados_banco with
    | inl e => inl e
    | inr col =>
        let colN := map astype_str col in
        let mask_keep := map (fun s => PyStr.startswith s "Y") colN in
        let removidas := length (filter negb mask_keep) in
        let dados_banco_filtrado :=
          mkDF (columns dados_banco)
               (boolean_index (values dados_banco) mask_keep) in
        inr (concat header_banco dados_banco_filtrado, removidas)
    end.

(** Lines 259-262: the block B6:AJ of the daily file without blank rows. *)
Definition preparar_dados_hoje (df_hoje : DataFrame) : DataFrame :=
  let dados_hoje := iloc_block 5 1 36 df_hoje in
  let dados_hoje := replace dados_hoje in
  mkDF (columns dados_hoje)
       (boolean_index (values dados_hoje)
          (map (fun r => negb (isna_all r)) (values dados_hoje))).

(** Lines 270-273: the widening loop.  The label of the new column is
    computed from the width the frame has in that pass. *)
Definition alargar (df_banco : DataFrame) (extra : nat) : DataFrame :=
  fold_left (fun df i => setitem (shape1 df + i) NA df) (seq 0 extra) df_banco.

(** Lines 267-280. *)
Definition append_banco (df_banco dados_hoje : DataFrame) : DataFrame :=
  if negb (empty dados_hoje) then
    let dados_hoje :=
      mkDF (seq 0 (shape1 dados_hoje)) (values dados_hoje) in
    let df_banco :=
      if shape1 df_banco <? shape1 dados_hoje
      then alargar df_banco (shape1 dados_hoje - shape1 df_banco)
      else df_banco in
    concat df_banco dados_hoje
  else df_banco.

Definition EXCLUIDAS : list nat := [0; 2; 3; 20].

(** Lines 284-299. *)
Definition remover_duplicatas (df_banco : DataFrame) : Result DataFrame :=
  let header_banco := iloc_head HEADER_ROWS_BANCO df_banco in
  let dados_banco := iloc_tail HEADER_ROWS_BANCO df_banco in
  if negb (empty dados_banco) then
    let colunas_todas := columns dados_banco in
    let subset :=
      filter (fun c => negb (has_label EXCLUIDAS c)) colunas_todas in
    match drop_duplicates subset dados_banco with
    | inl e => inl e
    | inr dados_banco_sem_dup => inr (concat header_banco dados_banco_sem_dup)
    end
  else inr df_banco.

(** ** [main] with its effects *)

(** What a run does to the outside: the two downloads, the count of
    removed rows it prints, the upload of the BANCO and the timestamp
    written to the ledger.  The other progress messages are left out. *)
Inductive Event : Type :=
| Download (file_id : string)
| Removidas (n : nat)
| Upload (file_id : string) (df : DataFrame)
| Timestamp.

(** The Drive folder as the run finds it: the listing and the first sheet
    of each spreadsheet. *)
Record Drive : Type := mkDrive {
  arquivos_da_pasta : list FileDescriptor;
  read_excel : string -> DataFrame
}.

(** A computation that may raise and that logs its effects. *)
Definition Run (A : Type) : Type := list Event -> list Event * Result A.

Definition ret {A : Type} (a : A) : Run A := fun t => (t, inr a).
Definition raise {A : Type} (e : Exception) : Run A := fun t => (t, inl e).
Definition emit (ev : Event) : Run unit := fun t => (t ++ [ev], inr tt).
Definition bind {A B : Type} (m : Run A) (k : A -> Run B) : Run B :=
  fun t => match m t with
           | (t', inl e) => (t', inl e)
           | (t', inr a) => k a t'
           end.
Definition lift {A : Type} (r : Result A) : Run A :=
  match r with inl e => raise e | inr a => ret a end.

Notation "x <- m ;; k" := (bind m (fun x => k))
  (at level 61, m at next level, right associativity).
Notation "m ;;; k" := (bind m (fun _ => k))
  (at level 61, right associativity).

Definition is_banco (f : FileDescriptor) : bool :=
  match name f with
  | Some n => String.eqb n BANCO_NAME
  | None => false
  end.

Definition main (drive : Drive) : Run unit :=
  let arquivos := arquivos_da_pasta drive in
  match arquivos with
  | [] => raise (RuntimeError "Nenhum arquivo encontrado na pasta informada.")
  | _ =>
  match find is_banco arquivos with
  | None => raise (RuntimeError "Arquivo 'BANCO.xlsx' nao encontrado na pasta.")
  | Some arquivo_banco =>
  match encontrar_busca_mais_recente arquivos BUSCA_PREFIX with
  | None =>
      raise (RuntimeError
        "Nenhum arquivo do tipo 'BUSCA ZPS141 - DD.MM.AAAA' encontrado na pasta.")
  | Some arquivo_hoje =>
      emit (Download (id arquivo_hoje)) ;;;
      emit (Download (id arquivo_banco)) ;;;
      let df_banco := read_excel drive (id arquivo_banco) in
      let df_hoje := read_excel drive (id arquivo_hoje) in
      limpo <- lift (limpar_banco df_banco) ;;
      let df_banco := fst limpo in
      emit (Removidas (snd limpo)) ;;;
      let dados_hoje := preparar_dados_hoje df_hoje in
      let df_banco := append_banco df_banco dados_hoje in
      df_banco <- lift (remover_duplicatas df_banco) ;;
      emit (Upload (id arquivo_banco) df_banco) ;;;
      emit Timestamp
  end end end.

(** ** The specification's reading, for comparison *)

(** The textual coercion of the row filter as the specification words it:
    an absent cell is the empty text. *)
Definition spec_text (c : Cell) : string :=
  match c with
  | NA => EmptyString
  | Text s => s
  | Num n => PyStr.of_int n
  end.

(** The row filter as the specification words it, at column 13 and
    prefix "Y". *)
Definition spec_keep (r : Row) : bool :=
  PyStr.startswith (spec_text (nth 13 r NA)) "Y".

Definition spec_filter (df : DataFrame) : DataFrame * nat :=
  let header := firstn HEADER_ROWS_BANCO (values df) in
  let data := skipn HEADER_ROWS_BANCO (values df) in
  (mkDF (columns df) (header ++ filter spec_keep data),
   length (filter (fun r => negb (spec_keep r)) data)).

(** A dated candidate as the specification words it: the ten characters
    that follow the prefix are the date. *)
Definition spec_dated (prefixo : string) (f : FileDescriptor) : bool :=
  PyStr.startswith (get_name f) prefixo
  && match Strptime.strptime
             (PyStr.take 10 (PyStr.drop (String.length prefixo) (get_name f)))
     with Some _ => true | None => false end.

(** Equal identity keys as the specification words it: cell by cell after
    the textual coercion. *)
Definition spec_same_key (cols subset : list nat) (r1 r2 : Row) : bool :=
  if list_eq_dec string_dec
       (map spec_text (key_of cols subset r1))
       (map spec_text (key_of cols subset r2))
  then true else false.

(** The region B6:AJ of a sheet, row by row. *)
Definition regiao (df : DataFrame) : list Row :=
  map (slice 1 36) (skipn 5 (values df)).

(** A cell with something in it. *)
Definition preenchida (c : Cell) : bool :=
  match c with
  | NA => false
  | Text EmptyString => false
  | _ => true
  end.

(** ** Sample data *)

Definition linha (w : nat) (c : Cell) : Row := repeat c w.

(** A BANCO with [w] columns: a header row, a data row of "Y1" and a data
    row of absent cells. *)
Definition banco_de (w : nat) : DataFrame :=
  mkDF (seq 0 w) [linha w (Text "h"); linha w (Text "Y1"); linha w NA].

(** A daily sheet with [w] columns: five rows above the block, then one
    row of numbers. *)
Definition hoje_de (w : nat) : DataFrame :=
  mkDF (seq 0 w) (repeat (linha w NA) 5 ++ [linha w (Num 7)]).

Definition busca (i nome : string) : FileDescriptor :=
  mkFile i (Some nome) "2024-03-15T00:00:00Z".

Definition pasta_exemplo : list FileDescriptor :=
  [ busca "1" "BUSCA ZPS141 - 01.03.2024";
    busca "2" "BUSCA ZPS141 - 15.03.2024";
    busca "3" "other.xlsx" ].

(** Two data rows that differ in column B only: the number 1 and the
    text "1". *)
Definition banco_um_texto : DataFrame :=
  mkDF (seq 0 14)
    [ linha 14 (Text "h");
      Text "a" :: Num 1 :: linha 12 (Text "Y");
      Text "a" :: Text "1" :: linha 12 (Text "Y") ].

(** ** Auxiliary notions *)

(** The columns deduplication compares. *)
Definition subset_de (df : DataFrame) : list nat :=
  filter (fun c => negb (has_label EXCLUIDAS c)) (columns df).

(** What the loop has found after the files [l]: nothing when no file of
    [l] is dated; otherwise a dated file of [l], later than every dated
    file before it and not earlier than any dated file of [l]. *)
Definition achado (prefixo : string) (l : list FileDescriptor)
    (st : Recente) : Prop :=
  match st with
  | (None, None) => forall g, In g l -> data_do_nome prefixo g = None
  | (Some f, Some dt) =>
      exists i, nth_error l i = Some f
        /\ data_do_nome prefixo f = Some dt
        /\ forall j g dg,
             nth_error l j = Some g -> data_do_nome prefixo g = Some dg ->
             dt_gt dg dt = false /\ (j < i -> dt_gt dt dg = true)
  | _ => False
  end.

Definition is_upload (ev : Event) : bool :=
  match ev with Upload _ _ => true | _ => false end.

(** A folder with the BANCO and the files of the example; the BANCO sheet
    has [w] columns, every other sheet 36. *)
Definition pasta_com_banco (w : nat) : Drive :=
  mkDrive (mkFile "0" (Some BANCO_NAME) "2024-03-14T00:00:00Z" :: pasta_exemplo)
          (fun i => if String.eqb i "0" then banco_de w else hoje_de 36).

(** The labels the widening loop gives to its [extra] new columns on a
    frame of width [w]: w, w+2, w+4, ... *)
Definition novas (w extra : nat) : list nat :=
  map (fun i => w + 2 * i) (seq 0 extra).

(** The frame a run uploads, if it uploads one. *)
Definition enviado (t : list Event) : option DataFrame :=
  match filter is_upload t with
  | Upload _ df :: _ => Some df
  | _ => None
  end.

(** ** The functions around [main] *)

(** Truth value of a Python [str]: the empty string is false. *)
Definition truthy (s : string) : bool :=
  match s with EmptyString => false | _ => true end.

(** What [get_credentials] reads: the two environment variables and
    [os.path.exists]. *)
Record Ambiente : Type := mkAmbiente {
  GOOGLE_CREDENTIALS : option string;
  GOOGLE_CREDENTIALS_FILE : option string;
  path_exists : string -> bool
}.

(** [os.getenv(var, default)] *)
Definition getenv (v : option string) (default : string) : string :=
  match v with Some s => s | None => default end.

(** The Google client library: credentials from the text of a JSON key
    ([json.loads] followed by [from_service_account_info]) and from a key
    file; both may raise. *)
Record Biblioteca (C : Type) : Type := mkBiblioteca {
  from_service_account_info : string -> Result C;
  from_service_account_file : string -> Result C
}.
Arguments from_service_account_info {C} _ _.
Arguments from_service_account_file {C} _ _.

Definition msg_sem_credenciais : string :=
  "Credenciais nao encontradas. Defina o secret/env GOOGLE_CREDENTIALS (JSON) ou GOOGLE_CREDENTIALS_FILE apontando para um arquivo.".

(** Lines 54-76. *)
Definition get_credentials {C : Type} (lib : Biblioteca C) (env : Ambiente)
    : Result C :=
  let creds_json := PyStr.strip (getenv (GOOGLE_CREDENTIALS env) "") in
  let creds_file := PyStr.strip (getenv (GOOGLE_CREDENTIALS_FILE env) "") in
  if truthy creds_json then from_service_account_info lib creds_json
  else if truthy creds_file then from_service_account_file lib creds_file
  else if path_exists env "credenciais.json"
       then from_service_account_file lib "credenciais.json"
       else inl (RuntimeError msg_sem_credenciais).

(** A value that is unset or made of white space only. *)
Fixpoint so_espacos (s : string) : bool :=
  match s with
  | EmptyString => true
  | String c s' => PyStr.isspace c && so_espacos s'
  end.

Definition em_branco (v : option string) : bool :=
  so_espacos (getenv v "").

(** One page of [files().list(...).execute()]: the keys "files" and
    "nextPageToken", either of which may be missing. *)
Record Resposta : Type := mkResposta {
  files : option (list FileDescriptor);
  nextPageToken : option string
}.

(** The listing service for the folder, as a function of [pageToken]. *)
Definition Api : Type := option string -> Resposta.

(** Lines 95-111: the paging loop, with a bound on the number of requests.
    [None] means the bound was reached. *)
Fixpoint listar_loop (fuel : nat) (api : Api) (page_token : option string)
    (acc : list FileDescriptor) : option (list FileDescriptor) :=
  match fuel with
  | O => None
  | S fuel' =>
      let resp := api page_token in
      let acc := acc ++ match files resp with Some l => l | None => [] end in
      let page_token := nextPageToken resp in
      match page_token with
      | Some t =>
          if truthy t then listar_loop fuel' api page_token acc else Some acc
      | None => Some acc
      end
  end.

Definition listar_arquivos_pasta (fuel : nat) (api : Api)
    : option (list FileDescriptor) :=
  listar_loop fuel api None [].

(** The service answers the request for [tok] with the first of the pages
    [ps] and a token for the next one, and so on; the last page comes with
    no token, or with an empty one. *)
Inductive paginas (api : Api) : option string -> list (list FileDescriptor)
    -> Prop :=
| paginas_fim tok :
    match nextPageToken (api tok) with
    | Some t => truthy t = false
    | None => True
    end ->
    paginas api tok [match files (api tok) with Some l => l | None => [] end]
| paginas_mais tok t ps :
    nextPageToken (api tok) = Some t -> truthy t = true ->
    paginas api (Some t) ps ->
    paginas api tok
      (match files (api tok) with Some l => l | None => [] end :: ps).

(** The ten characters DD.MM.AAAA that the naming convention of the daily
    file gives to a date. *)
Definition digit_char (n : nat) : ascii := ascii_of_nat (48 + n mod 10).

Definition pad2 (n : nat) : string :=
  String (digit_char (n / 10)) (String (digit_char n) EmptyString).

Definition pad4 (n : nat) : string :=
  String (digit_char (n / 1000))
    (String (digit_char (n / 100))
       (String (digit_char (n / 10)) (String (digit_char n) EmptyString))).

Definition nome_da_data (dt : datetime) : string :=
  pad2 (day dt) ++ "." ++ pad2 (month dt) ++ "." ++ pad4 (year dt).

(** [l1] is [l2] with some elements left out, the others in their order. *)
Inductive subseq {A : Type} : list A -> list A -> Prop :=
| subseq_nil : subseq [] []
| subseq_keep x l1 l2 : subseq l1 l2 -> subseq (x :: l1) (x :: l2)
| subseq_drop x l1 l2 : subseq l1 l2 -> subseq l1 (x :: l2).

(** A listing service with two pages. *)
Definition api_duas_paginas : Api := fun tok =>
  match tok with
  | None => mkResposta (Some [busca "1" "BUSCA ZPS141 - 01.03.2024"]) (Some "p2")
  | Some _ => mkResposta (Some [busca "2" "BUSCA ZPS141 - 15.03.2024"]) None
  end.

(** A library that accepts every key. *)
Definition biblioteca_exemplo : Biblioteca string :=
  mkBiblioteca string (fun s => inr s) (fun s => inr s).

(** ** Lists and frames *)

Lemma boolean_index_map (f : Row -> bool) (rows : list Row) :
  boolean_index rows (map f rows) = filter f rows.
Proof.
  induction rows as [|r rows IH]; simpl; [reflexivity|].
  destruct (f r); rewrite IH; reflexivity.
Qed.

Lemma index_of_None (c : nat) (cs : list nat) :
  ~ In c cs -> index_of c cs = None.
Proof.
  induction cs as [|c' cs IH]; simpl; intros Hn; [reflexivity|].
  destruct (Nat.eqb_spec c c') as [->|Hne]; [exfalso; auto|].
  rewrite IH; [reflexivity | tauto].
Qed.

Lemma has_label_In (cs : list nat) (c : nat) :
  has_label cs c = true <-> In c cs.
Proof.
  unfold has_label. rewrite existsb_exists. split.
  - intros [x [Hin Heq]]. apply Nat.eqb_eq in Heq. subst. exact Hin.
  - intros Hin. exists c. split; [exact Hin | apply Nat.eqb_refl].
Qed.

(** Laying a row out under its own labels changes nothing. *)
Lemma reindex_prefix (pre cs : list nat) (p r : Row) :
  NoDup (pre ++ cs) -> length p = length pre -> length r = length cs ->
  map (fun c => match index_of c (pre ++ cs) with
                | Some i => nth i (p ++ r) NA
                | None => NA
                end) cs = r.
Proof.
  revert pre p r; induction cs as [|c cs IH]; intros pre p r Hnd Hp Hr.
  - destruct r; [reflexivity | discriminate].
  - destruct r as [|x r]; [discriminate|]. simpl. f_equal.
    + assert (Hi : index_of c (pre ++ c :: cs) = Some (length pre)).
      { clear - Hnd. induction pre as [|a pre IHp]; simpl.
        - rewrite Nat.eqb_refl. reflexivity.
        - simpl in Hnd. inversion Hnd as [|? ? Hnotin Hnd']; subst.
          destruct (Nat.eqb_spec c a) as [->|Hne].
          + exfalso. apply Hnotin. apply in_or_app. right. left. reflexivity.
          + rewrite (IHp Hnd'). reflexivity. }
      rewrite Hi, <- Hp, app_nth2, Nat.sub_diag by lia. reflexivity.
    + specialize (IH (pre ++ [c]) (p ++ [x]) r).
      rewrite <- !app_assoc in IH. simpl in IH. apply IH.
      * exact Hnd.
      * rewrite !length_app. simpl. lia.
      * simpl in Hr. lia.
Qed.

Lemma reindex_id (cs : list nat) (r : Row) :
  NoDup cs -> length r = length cs -> reindex cs cs r = r.
Proof.
  intros Hnd Hr. exact (reindex_prefix [] cs [] r Hnd eq_refl Hr).
Qed.

Lemma filter_present_nil (cs l : list nat) :
  incl l cs -> filter (fun c => negb (has_label cs c)) l = [].
Proof.
  induction l as [|c l IH]; intros Hin; [reflexivity|]. simpl.
  assert (Hc : has_label cs c = true)
    by (apply has_label_In, Hin; left; reflexivity).
  rewrite Hc. simpl. apply IH. intros x Hx. apply Hin. right. exact Hx.
Qed.

Lemma union_columns_same (cs : list nat) : union_columns cs cs = cs.
Proof.
  unfold union_columns. rewrite filter_present_nil by apply incl_refl.
  apply app_nil_r.
Qed.

Lemma map_reindex_id (cs : list nat) (rows : list Row) :
  NoDup cs -> Forall (fun r => length r = length cs) rows ->
  map (reindex cs cs) rows = rows.
Proof.
  intros Hnd Hall. induction Hall as [|r rows Hr _ IH]; simpl; [reflexivity|].
  rewrite reindex_id, IH by assumption. reflexivity.
Qed.

(** Concatenating two frames over the same labels stacks their rows. *)
Lemma concat_same_columns (cs : list nat) (ra rb : list Row) :
  NoDup cs ->
  Forall (fun r => length r = length cs) ra ->
  Forall (fun r => length r = length cs) rb ->
  concat (mkDF cs ra) (mkDF cs rb) = mkDF cs (ra ++ rb).
Proof.
  intros Hnd Ha Hb. unfold concat. simpl.
  rewrite union_columns_same, !map_reindex_id by assumption. reflexivity.
Qed.

Lemma Forall_firstn {A : Type} (P : A -> Prop) (n : nat) (l : list A) :
  Forall P l -> Forall P (firstn n l).
Proof.
  rewrite !Forall_forall. intros H x Hx. apply H.
  rewrite <- (firstn_skipn n l). apply in_or_app. left. exact Hx.
Qed.

Lemma Forall_skipn {A : Type} (P : A -> Prop) (n : nat) (l : list A) :
  Forall P l -> Forall P (skipn n l).
Proof.
  rewrite !Forall_forall. intros H x Hx. apply H.
  rewrite <- (firstn_skipn n l). apply in_or_app. right. exact Hx.
Qed.

Lemma Forall_filter_keep {A : Type} (P : A -> Prop) (f : A -> bool)
    (l : list A) :
  Forall P l -> Forall P (filter f l).
Proof.
  rewrite !Forall_forall. intros H x Hx. apply H.
  apply filter_In in Hx. tauto.
Qed.

Lemma grid_wf (df : DataFrame) : grid df -> wf df.
Proof.
  intros [Hc Hr]. split; [|exact Hr]. rewrite Hc. apply seq_NoDup.
Qed.

(** ** The row filter *)

Lemma filter_negb_map {A : Type} (f : A -> bool) (l : list A) :
  length (filter negb (map f l)) = length (filter (fun a => negb (f a)) l).
Proof.
  induction l as [|a l IH]; simpl; [reflexivity|].
  destruct (f a); simpl; rewrite IH; reflexivity.
Qed.

(** No integer prints with a leading "Y". *)
Lemma of_int_not_Y (n : Z) : PyStr.startswith (PyStr.of_int n) "Y" = false.
Proof.
  unfold PyStr.startswith, PyStr.of_int.
  destruct (Z.to_int n) as [d|d]; simpl; [|reflexivity].
  destruct d; reflexivity.
Qed.

Lemma startswith_Y_coercion (c : Cell) :
  PyStr.startswith (astype_str c) "Y" = PyStr.startswith (spec_text c) "Y".
Proof. destruct c; reflexivity. Qed.

Lemma limpar_banco_rows (df : DataFrame) :
  wf df -> 14 <= shape1 df ->
  limpar_banco df =
    inr (mkDF (columns df)
           (firstn HEADER_ROWS_BANCO (values df)
            ++ filter spec_keep (skipn HEADER_ROWS_BANCO (values df))),
         length (filter (fun r => negb (spec_keep r))
                   (skipn HEADER_ROWS_BANCO (values df)))).
Proof.
  intros [Hnd Hrect] Hw. unfold limpar_banco.
  destruct (Nat.leb_spec (shape1 df) 13) as [Hle|_]; [lia|].
  unfold iloc_col, iloc_tail, iloc_head, shape1 in *. cbn [columns values].
  destruct (Nat.ltb_spec 13 (length (columns df))) as [_|Hge]; [|lia].
  rewrite !map_map.
  rewrite (boolean_index_map
             (fun r => PyStr.startswith (astype_str (nth 13 r NA)) "Y")).
  assert (Hk : forall l : list Row,
             filter (fun r => PyStr.startswith (astype_str (nth 13 r NA)) "Y") l
             = filter spec_keep l).
  { intros l. apply filter_ext. intros r. apply startswith_Y_coercion. }
  rewrite Hk.
  rewrite concat_same_columns.
  - rewrite filter_negb_map.
    rewrite (filter_ext
               (fun r => negb (PyStr.startswith (astype_str (nth 13 r NA)) "Y"))
               (fun r => negb (spec_keep r))); [reflexivity|].
    intros r. unfold spec_keep. rewrite startswith_Y_coercion. reflexivity.
  - exact Hnd.
  - apply Forall_firstn. exact Hrect.
  - apply Forall_filter_keep, Forall_skipn. exact Hrect.
Qed.

(** C2. On a BANCO that has column N, the row filter returns what the
    specification's filter returns: the header row unchanged, then the data
    rows whose cell in column 13, read as text with an absent cell read as
    the empty text, starts with "Y", in their original order, together with
    the number of rows removed. *)
Theorem limpar_banco_refines_spec (df : DataFrame) :
  wf df -> 14 <= shape1 df ->
  limpar_banco df = inr (spec_filter df).
Proof.
  intros Hwf Hw. rewrite limpar_banco_rows by assumption. reflexivity.
Qed.

Lemma limpar_banco_refines_spec_witness :
  limpar_banco (banco_de 14) = inr (spec_filter (banco_de 14)).
Proof.
  apply limpar_banco_refines_spec.
  - apply grid_wf. split; [reflexivity|].
    unfold rectangular. repeat constructor.
  - unfold shape1. simpl. lia.
Defined.

Lemma limpar_banco_inr_width (df out : DataFrame) (n : nat) :
  limpar_banco df = inr (out, n) -> 14 <= shape1 df.
Proof.
  unfold limpar_banco.
  destruct (Nat.leb_spec (shape1 df) 13) as [_|Hlt]; [discriminate | lia].
Qed.

Lemma filter_length_le {A : Type} (f g : A -> bool) (l : list A) :
  (forall a, f a = true -> g a = true) ->
  length (filter f l) <= length (filter g l).
Proof.
  intros Hfg. induction l as [|a l IH]; simpl; [lia|].
  destruct (f a) eqn:Hf.
  - rewrite (Hfg a Hf). simpl. lia.
  - destruct (g a); simpl; lia.
Qed.

Lemma skipn_header (v l : list Row) :
  (v = [] -> l = []) ->
  skipn HEADER_ROWS_BANCO (firstn HEADER_ROWS_BANCO v ++ l) = l.
Proof.
  destruct v as [|h v]; simpl; intros H; [|reflexivity].
  rewrite H by reflexivity. reflexivity.
Qed.

(** C9. After the row filter no data row has an absent cell in column 13,
    and every data row with an absent cell there is counted as removed. *)
Theorem limpar_banco_drops_null (df out : DataFrame) (removidas : nat) :
  wf df -> limpar_banco df = inr (out, removidas) ->
  Forall (fun r => nth 13 r NA <> NA) (skipn HEADER_ROWS_BANCO (values out))
  /\ length (filter (fun r => isna (nth 13 r NA))
               (skipn HEADER_ROWS_BANCO (values df))) <= removidas.
Proof.
  intros Hwf Hrun.
  pose proof (limpar_banco_inr_width _ _ _ Hrun) as Hw.
  rewrite limpar_banco_rows in Hrun by assumption.
  assert (Hout : values out =
                 firstn HEADER_ROWS_BANCO (values df)
                 ++ filter spec_keep (skipn HEADER_ROWS_BANCO (values df)))
    by (inversion Hrun; reflexivity).
  assert (Hrem : removidas =
                 length (filter (fun r => negb (spec_keep r))
                           (skipn HEADER_ROWS_BANCO (values df))))
    by (inversion Hrun; reflexivity).
  rewrite Hout, Hrem. clear Hout Hrem Hrun. split.
  - rewrite skipn_header.
    + apply Forall_forall. intros r Hr. apply filter_In in Hr.
      destruct Hr as [_ Hk]. unfold spec_keep in Hk. intros Hna.
      rewrite Hna in Hk. discriminate.
    + intros ->. reflexivity.
  - apply filter_length_le. intros r Hna. unfold spec_keep.
    destruct (nth 13 r NA); [reflexivity | discriminate | discriminate].
Qed.

Lemma limpar_banco_drops_null_witness :
  Forall (fun r => nth 13 r NA <> NA)
    (skipn HEADER_ROWS_BANCO (values (fst (spec_filter (banco_de 14)))))
  /\ length (filter (fun r => isna (nth 13 r NA))
               (skipn HEADER_ROWS_BANCO (values (banco_de 14))))
     <= snd (spec_filter (banco_de 14)).
Proof.
  apply (limpar_banco_drops_null (banco_de 14)).
  - apply grid_wf. split; [reflexivity|].
    unfold rectangular. repeat constructor.
  - reflexivity.
Defined.

(** ** The block B6:AJ *)

Lemma filter_map_swap {A B : Type} (g : A -> B) (f : B -> bool) (l : list A) :
  filter f (map g l) = map g (filter (fun a => f (g a)) l).
Proof.
  induction l as [|a l IH]; simpl; [reflexivity|].
  destruct (f (g a)); simpl; rewrite IH; reflexivity.
Qed.

Lemma isna_all_replace (r : Row) :
  negb (isna_all (map replace_empty r)) = existsb preenchida r.
Proof.
  unfold isna_all. induction r as [|c r IH]; simpl; [reflexivity|].
  rewrite negb_andb, IH. f_equal.
  destruct c as [|s|n]; [reflexivity | destruct s; reflexivity | reflexivity].
Qed.

Lemma preenchida_replace (c : Cell) :
  preenchida c = true -> replace_empty c = c.
Proof.
  destruct c as [|s|n]; [discriminate | destruct s | ]; simpl;
    intros H; (reflexivity || discriminate).
Qed.

(** C6. The rows extracted from B6:AJ are the rows of that region, from row
    offset 5 and columns 1 to 35, that have a cell with something in it, in
    the order of the sheet and with all their columns (an empty text being
    read as absent); hence every extracted row has a cell that is neither
    absent nor the empty text. *)
Theorem preparar_dados_hoje_no_blank (df_hoje : DataFrame) :
  let dados_hoje := preparar_dados_hoje df_hoje in
  columns dados_hoje = slice 1 36 (columns df_hoje)
  /\ values dados_hoje =
       map (map replace_empty) (filter (existsb preenchida) (regiao df_hoje))
  /\ Forall (fun r => exists c, In c r /\ c <> NA /\ c <> Text EmptyString)
       (values dados_hoje).
Proof.
  assert (Hv : values (preparar_dados_hoje df_hoje) =
               map (map replace_empty)
                 (filter (existsb preenchida) (regiao df_hoje))).
  { unfold preparar_dados_hoje, replace, iloc_block, regiao. cbn [values columns].
    rewrite (boolean_index_map (fun r => negb (isna_all r))).
    rewrite filter_map_swap. f_equal. apply filter_ext.
    intros r. apply isna_all_replace. }
  cbv zeta. split; [reflexivity|]. split; [exact Hv|].
  rewrite Hv. apply Forall_forall. intros r' Hr'.
  apply in_map_iff in Hr'. destruct Hr' as [r [<- Hr]].
  apply filter_In in Hr. destruct Hr as [_ Hex].
  apply existsb_exists in Hex. destruct Hex as [c [Hc Hp]].
  exists c. split.
  - apply in_map_iff. exists c. split; [apply preenchida_replace, Hp | exact Hc].
  - destruct c as [|s|n]; [discriminate | destruct s | ];
      (discriminate || (split; discriminate)).
Qed.

(** ** Deduplication *)

Lemma key_eqb_eq (k1 k2 : list Cell) : key_eqb k1 k2 = true <-> k1 = k2.
Proof.
  unfold key_eqb. destruct (list_eq_dec Cell_eq_dec k1 k2); split;
    (congruence || discriminate || reflexivity).
Qed.

Lemma seen_In (k : list Cell) (seen : list (list Cell)) :
  existsb (key_eqb k) seen = true <-> In k seen.
Proof.
  rewrite existsb_exists. split.
  - intros [x [Hin Heq]]. apply key_eqb_eq in Heq. subst. exact Hin.
  - intros Hin. exists k. split; [exact Hin | apply key_eqb_eq; reflexivity].
Qed.

Section Duplicated.

Variables cols subset : list nat.

Local Abbreviation key := (key_of cols subset).

(** A row is marked when its key was met before: among the keys given at
    the start or at an earlier row. *)
Lemma duplicated_from_spec (rows : list Row) :
  forall (seen : list (list Cell)) (j : nat),
    j < length rows ->
    (nth j (duplicated_from cols subset seen rows) false = true <->
     In (key (nth j rows [])) seen
     \/ exists i, i < j /\ key (nth i rows []) = key (nth j rows [])).
Proof.
  induction rows as [|r rows IH]; intros seen j Hj; simpl in Hj; [lia|].
  simpl duplicated_from.
  destruct (existsb (key_eqb (key r)) seen) eqn:Hseen.
  - apply seen_In in Hseen. destruct j as [|j]; simpl.
    + split; [intros _; left; exact Hseen | reflexivity].
    + rewrite (IH seen j) by lia. split.
      * intros [Hin | [i [Hi Hk]]]; [left; exact Hin|].
        right. exists (S i). split; [lia | exact Hk].
      * intros [Hin | [i [Hi Hk]]]; [left; exact Hin|].
        destruct i as [|i]; simpl in Hk.
        -- left. rewrite <- Hk. exact Hseen.
        -- right. exists i. split; [lia | exact Hk].
  - destruct j as [|j]; simpl.
    + split; [discriminate|].
      intros [Hin | [i [Hi _]]]; [|lia].
      apply seen_In in Hin. congruence.
    + rewrite (IH (key r :: seen) j) by lia. simpl. split.
      * intros [[Heq | Hin] | [i [Hi Hk]]].
        -- right. exists 0. split; [lia | exact Heq].
        -- left. exact Hin.
        -- right. exists (S i). split; [lia | exact Hk].
      * intros [Hin | [i [Hi Hk]]]; [left; right; exact Hin|].
        destruct i as [|i]; simpl in Hk.
        -- left. left. exact Hk.
        -- right. exists i. split; [lia | exact Hk].
Qed.

(** Among the survivors nothing is marked again. *)
Lemma survivors_fixpoint (rows : list Row) :
  forall seen,
    survivors cols subset seen (survivors cols subset seen rows)
    = survivors cols subset seen rows.
Proof.
  unfold survivors.
  induction rows as [|r rows IH]; intros seen; [reflexivity|].
  simpl duplicated_from.
  destruct (existsb (key_eqb (key_of cols subset r)) seen) eqn:Hseen.
  - simpl. apply IH.
  - simpl. rewrite Hseen. simpl. f_equal. apply IH.
Qed.

Lemma survivors_nil_inv (rows : list Row) :
  survivors cols subset [] rows = [] -> rows = [].
Proof.
  unfold survivors. destruct rows as [|r rows]; [reflexivity|].
  simpl. discriminate.
Qed.

Lemma survivors_Forall (rows : list Row) (P : Row -> Prop) :
  forall seen, Forall P rows -> Forall P (survivors cols subset seen rows).
Proof.
  unfold survivors. induction rows as [|r rows IH]; intros seen Hall.
  - constructor.
  - inversion Hall as [|? ? Hr Hrows]; subst. simpl duplicated_from.
    destruct (existsb (key_eqb (key_of cols subset r)) seen); simpl.
    + apply IH. exact Hrows.
    + constructor; [exact Hr | apply IH; exact Hrows].
Qed.

End Duplicated.

(** C1, as the code has it. A data row is treated as a duplicate exactly
    when an earlier data row has the same identity key, the cells at all
    columns except those labelled 0, 2, 3 and 20, where two keys are the
    same when they hold equal values cell by cell: absent equals absent, a
    text equals the same text, a number equals the same number, and no text
    equals a number. No textual coercion takes part. *)
Theorem duplicated_iff_same_key (dados : DataFrame) (j : nat) :
  j < shape0 dados ->
  (nth j (duplicated (subset_de dados) dados) false = true <->
   exists i, i < j
     /\ key_of (columns dados) (subset_de dados) (nth i (values dados) [])
        = key_of (columns dados) (subset_de dados) (nth j (values dados) [])).
Proof.
  intros Hj. unfold duplicated.
  rewrite (duplicated_from_spec (columns dados) (subset_de dados)
             (values dados) [] j Hj).
  simpl. tauto.
Qed.

Lemma duplicated_iff_same_key_witness :
  nth 1 (duplicated (subset_de (mkDF [0; 1] [[NA; Text "k"]; [Num 5; Text "k"]]))
           (mkDF [0; 1] [[NA; Text "k"]; [Num 5; Text "k"]]))
      false = true <->
  exists i, i < 1
    /\ key_of [0; 1] [1] (nth i [[NA; Text "k"]; [Num 5; Text "k"]] [])
       = key_of [0; 1] [1] (nth 1 [[NA; Text "k"]; [Num 5; Text "k"]] []).
Proof.
  apply (duplicated_iff_same_key
           (mkDF [0; 1] [[NA; Text "k"]; [Num 5; Text "k"]]) 1).
  unfold shape0. simpl. lia.
Defined.

(** C1 fails as stated: the number 1 and the text "1" read the same as
    text, so the two data rows have equal keys under the coercion, yet
    neither row is marked and deduplication keeps both. *)
Lemma duplicated_ignores_coercion :
  let dados := iloc_tail HEADER_ROWS_BANCO banco_um_texto in
  let subset :=
    filter (fun c => negb (has_label EXCLUIDAS c)) (columns dados) in
  spec_same_key (columns dados) subset
    (nth 0 (values dados) []) (nth 1 (values dados) []) = true
  /\ duplicated subset dados = [false; false]
  /\ remover_duplicatas banco_um_texto = inr banco_um_texto.
Proof. vm_compute. repeat split; reflexivity. Qed.

(** The deduplication stage on a well-formed frame, in closed form. *)
Lemma remover_duplicatas_rows (df : DataFrame) :
  wf df ->
  remover_duplicatas df =
    if negb (empty (iloc_tail HEADER_ROWS_BANCO df)) then
      match subset_de df with
      | [] => inl ValueError
      | _ => inr (mkDF (columns df)
                    (firstn HEADER_ROWS_BANCO (values df)
                     ++ survivors (columns df) (subset_de df) []
                          (skipn HEADER_ROWS_BANCO (values df))))
      end
    else inr df.
Proof.
  intros [Hnd Hrect]. unfold remover_duplicatas, subset_de.
  destruct (negb (empty (iloc_tail HEADER_ROWS_BANCO df))); [|reflexivity].
  unfold drop_duplicates, iloc_tail, iloc_head. cbn [columns values].
  destruct (filter (fun c => negb (has_label EXCLUIDAS c)) (columns df))
    as [|c subset] eqn:Hsub; [reflexivity|].
  rewrite concat_same_columns; [reflexivity | exact Hnd | |].
  - apply Forall_firstn. exact Hrect.
  - apply survivors_Forall, Forall_skipn. exact Hrect.
Qed.

(** C7. Deduplicating a deduplicated table changes nothing. *)
Theorem remover_duplicatas_idempotent (T T' : DataFrame) :
  wf T ->
  remover_duplicatas T = inr T' ->
  remover_duplicatas T' = inr T'.
Proof.
  intros Hwf Hrun. pose proof Hwf as [Hnd Hrect].
  rewrite remover_duplicatas_rows in Hrun by exact Hwf.
  destruct (negb (empty (iloc_tail HEADER_ROWS_BANCO T))) eqn:Hne.
  2:{ assert (T' = T) by congruence. subst T'.
      rewrite remover_duplicatas_rows by exact Hwf. rewrite Hne. reflexivity. }
  destruct (subset_de T) as [|c subset] eqn:Hsub; [discriminate|].
  destruct (values T) as [|h rest] eqn:Hv.
  { unfold empty, iloc_tail, shape0 in Hne. cbn [values] in Hne.
    rewrite Hv in Hne. discriminate. }
  assert (HT' : T' = mkDF (columns T)
                       (h :: survivors (columns T) (c :: subset) [] rest))
    by (inversion Hrun; reflexivity).
  clear Hrun.
  assert (Hrest : rest <> []).
  { intros ->. unfold empty, iloc_tail, shape0 in Hne. cbn [values] in Hne.
    rewrite Hv in Hne. discriminate. }
  assert (Hsurv : survivors (columns T) (c :: subset) [] rest <> []).
  { intros Hnil. apply Hrest. eapply survivors_nil_inv. exact Hnil. }
  assert (Hwf' : wf T').
  { subst T'. split; [exact Hnd|]. unfold rectangular, shape1 in *.
    cbn [columns values]. rewrite Hv in Hrect.
    inversion Hrect as [|? ? Hh Hr]; subst.
    constructor; [exact Hh | apply survivors_Forall; exact Hr]. }
  rewrite remover_duplicatas_rows by exact Hwf'.
  assert (Hsub' : subset_de T' = c :: subset)
    by (subst T'; exact Hsub).
  assert (Hne' : negb (empty (iloc_tail HEADER_ROWS_BANCO T')) = true).
  { subst T'. unfold empty, iloc_tail, shape0, shape1 in *.
    cbn [columns values] in *. rewrite Hv in Hne. simpl skipn in *.
    destruct (survivors (columns T) (c :: subset) [] rest);
      [contradiction|].
    destruct (columns T); [discriminate | reflexivity]. }
  rewrite Hne', Hsub'. subst T'. cbn [columns values]. simpl firstn.
  simpl skipn. rewrite survivors_fixpoint. reflexivity.
Qed.

Lemma remover_duplicatas_idempotent_witness :
  remover_duplicatas
    (mkDF (seq 0 14)
       [linha 14 (Text "h"); Text "x" :: linha 13 (Text "Y")])
  = inr (mkDF (seq 0 14)
           [linha 14 (Text "h"); Text "x" :: linha 13 (Text "Y")]).
Proof.
  apply (remover_duplicatas_idempotent
           (mkDF (seq 0 14)
              [linha 14 (Text "h");
               Text "x" :: linha 13 (Text "Y");
               Text "z" :: linha 13 (Text "Y")])).
  - apply grid_wf. split; [reflexivity|].
    unfold rectangular. repeat constructor.
  - reflexivity.
Defined.

(** ** The source selector *)

Ltac dates :=
  unfold dt_gt in *; cbn [year month day] in *;
  repeat first
    [ rewrite orb_true_iff in * | rewrite andb_true_iff in *
    | rewrite orb_false_iff in * | rewrite andb_false_iff in *
    | rewrite Nat.ltb_lt in * | rewrite Nat.ltb_ge in *
    | rewrite Nat.eqb_eq in * | rewrite Nat.eqb_neq in * ];
  lia.

Lemma dt_gt_irrefl (a : datetime) : dt_gt a a = false.
Proof. destruct a. dates. Qed.

Lemma dt_gt_asym (a b : datetime) : dt_gt a b = true -> dt_gt b a = false.
Proof. destruct a, b. intros H. dates. Qed.

(** [a > b] and not [c > b] give [a > c]. *)
Lemma dt_gt_le_trans (a b c : datetime) :
  dt_gt a b = true -> dt_gt c b = false -> dt_gt a c = true.
Proof. destruct a, b, c. intros H1 H2. dates. Qed.

Lemma nth_error_snoc {A : Type} (l : list A) (x : A) (j : nat) (y : A) :
  nth_error (l ++ [x]) j = Some y ->
  (j < length l /\ nth_error l j = Some y) \/ (j = length l /\ y = x).
Proof.
  intros H. destruct (Nat.lt_ge_cases j (length l)) as [Hlt|Hge].
  - left. split; [exact Hlt|]. rewrite nth_error_app1 in H by exact Hlt.
    exact H.
  - right. rewrite nth_error_app2 in H by exact Hge.
    destruct (j - length l) as [|k] eqn:Hk; simpl in H.
    + split; [lia | congruence].
    + destruct k; discriminate.
Qed.

Lemma passo_achado (prefixo : string) (l : list FileDescriptor)
    (st : Recente) (x : FileDescriptor) :
  achado prefixo l st -> achado prefixo (l ++ [x]) (passo prefixo st x).
Proof.
  intros Hst. unfold passo.
  destruct (data_do_nome prefixo x) as [dx|] eqn:Hx.
  - destruct st as [[f|] [dt|]]; simpl in *; try contradiction.
    + destruct Hst as [i [Hi [Hf Hall]]].
      assert (Hil : i < length l)
        by (apply nth_error_Some; congruence).
      destruct (dt_gt dx dt) eqn:Hgt.
      * exists (length l). split; [|split].
        -- rewrite nth_error_app2, Nat.sub_diag by lia. reflexivity.
        -- exact Hx.
        -- intros j g dg Hj Hg. apply nth_error_snoc in Hj.
           destruct Hj as [[Hjl Hj] | [Hjl ->]].
           ++ destruct (Hall j g dg Hj Hg) as [Hle _].
              pose proof (dt_gt_le_trans _ _ _ Hgt Hle) as Hlt.
              split; [apply dt_gt_asym; exact Hlt | intros _; exact Hlt].
           ++ assert (dg = dx) by congruence. subst dg.
              split; [apply dt_gt_irrefl | lia].
      * exists i. split; [|split].
        -- rewrite nth_error_app1 by exact Hil. exact Hi.
        -- exact Hf.
        -- intros j g dg Hj Hg. apply nth_error_snoc in Hj.
           destruct Hj as [[Hjl Hj] | [Hjl ->]].
           ++ apply (Hall j g dg Hj Hg).
           ++ assert (dg = dx) by congruence. subst dg.
              split; [exact Hgt | lia].
    + exists (length l). split; [|split].
      * rewrite nth_error_app2, Nat.sub_diag by lia. reflexivity.
      * exact Hx.
      * intros j g dg Hj Hg. apply nth_error_snoc in Hj.
        destruct Hj as [[Hjl Hj] | [Hjl ->]].
        -- apply nth_error_In in Hj. rewrite (Hst g Hj) in Hg. discriminate.
        -- assert (dg = dx) by congruence. subst dg.
           split; [apply dt_gt_irrefl | lia].
  - destruct st as [[f|] [dt|]]; simpl in *; try contradiction.
    + destruct Hst as [i [Hi [Hf Hall]]].
      assert (Hil : i < length l)
        by (apply nth_error_Some; congruence).
      exists i. split; [|split].
      * rewrite nth_error_app1 by exact Hil. exact Hi.
      * exact Hf.
      * intros j g dg Hj Hg. apply nth_error_snoc in Hj.
        destruct Hj as [[Hjl Hj] | [Hjl ->]].
        -- apply (Hall j g dg Hj Hg).
        -- congruence.
    + intros g Hg. apply in_app_or in Hg. destruct Hg as [Hg | [<- | []]].
      * apply Hst. exact Hg.
      * exact Hx.
Qed.

Lemma loop_achado (prefixo : string) (l : list FileDescriptor) :
  achado prefixo l (fold_left (passo prefixo) l (None, None)).
Proof.
  induction l as [|x l IH] using rev_ind.
  - simpl. intros g [].
  - rewrite fold_left_app. simpl. apply passo_achado. exact IH.
Qed.

(** C5. The selector returns a dated file whose date no dated file of the
    listing exceeds, and every dated file listed before it is strictly
    older, so among the files of the greatest date the first listed wins;
    it returns a file whenever the listing has a dated one; and in the
    listing of the example the file of 15.03.2024 is chosen. *)
Theorem encontrar_latest_first_seen :
  (forall arquivos prefixo f,
      encontrar_busca_mais_recente arquivos prefixo = Some f ->
      exists i dt,
        nth_error arquivos i = Some f
        /\ data_do_nome prefixo f = Some dt
        /\ forall j g dg,
             nth_error arquivos j = Some g ->
             data_do_nome prefixo g = Some dg ->
             dt_gt dg dt = false /\ (j < i -> dt_gt dt dg = true))
  /\ (forall arquivos prefixo g,
         In g arquivos -> data_do_nome prefixo g <> None ->
         encontrar_busca_mais_recente arquivos prefixo <> None)
  /\ encontrar_busca_mais_recente pasta_exemplo BUSCA_PREFIX
     = Some (busca "2" "BUSCA ZPS141 - 15.03.2024").
Proof.
  split; [|split].
  - intros arquivos prefixo f Hsel.
    pose proof (loop_achado prefixo arquivos) as Hinv.
    unfold encontrar_busca_mais_recente in Hsel.
    destruct (fold_left (passo prefixo) arquivos (None, None))
      as [[f'|] [dt|]]; simpl in Hsel, Hinv; try contradiction;
      try discriminate.
    assert (f' = f) by congruence. subst f'.
    destruct Hinv as [i Hi]. exists i, dt. exact Hi.
  - intros arquivos prefixo g Hg Hdated Hsel.
    pose proof (loop_achado prefixo arquivos) as Hinv.
    unfold encontrar_busca_mais_recente in Hsel.
    destruct (fold_left (passo prefixo) arquivos (None, None))
      as [[f'|] [dt|]]; simpl in Hsel, Hinv; try contradiction;
      try discriminate.
    apply Hdated, Hinv, Hg.
  - vm_compute. reflexivity.
Qed.

Lemma encontrar_latest_first_seen_witness :
  exists i dt,
    nth_error pasta_exemplo i = Some (busca "2" "BUSCA ZPS141 - 15.03.2024")
    /\ data_do_nome BUSCA_PREFIX (busca "2" "BUSCA ZPS141 - 15.03.2024")
       = Some dt
    /\ forall j g dg,
         nth_error pasta_exemplo j = Some g ->
         data_do_nome BUSCA_PREFIX g = Some dg ->
         dt_gt dg dt = false /\ (j < i -> dt_gt dt dg = true).
Proof.
  apply (proj1 encontrar_latest_first_seen pasta_exemplo BUSCA_PREFIX).
  vm_compute. reflexivity.
Defined.

Lemma passo_sem_data (prefixo : string) (f : FileDescriptor) (st : Recente) :
  data_do_nome prefixo f = None -> passo prefixo st f = st.
Proof. intros H. unfold passo. rewrite H. reflexivity. Qed.

Lemma encontrar_um (prefixo : string) (f : FileDescriptor) :
  encontrar_busca_mais_recente [f] prefixo =
    match data_do_nome prefixo f with Some _ => Some f | None => None end.
Proof.
  unfold encontrar_busca_mais_recente. simpl. unfold passo.
  destruct (data_do_nome prefixo f); reflexivity.
Qed.

(** C4, as the code has it. A file is a dated candidate exactly when its
    name starts with the prefix and the first ten characters of what
    follows the prefix, taken after trimming the white space around that
    remainder, parse as a day.month.year date; a file that is not a dated
    candidate is passed over wherever it stands in the listing, and the
    selection is the same as without it. *)
Theorem encontrar_dated_candidate (prefixo : string) (f : FileDescriptor) :
  (encontrar_busca_mais_recente [f] prefixo = Some f <->
   PyStr.startswith (get_name f) prefixo = true
   /\ exists dt,
        Strptime.strptime
          (PyStr.take 10
             (PyStr.strip (PyStr.drop (String.length prefixo) (get_name f))))
        = Some dt)
  /\ (encontrar_busca_mais_recente [f] prefixo = None ->
      forall antes depois,
        encontrar_busca_mais_recente (antes ++ f :: depois) prefixo
        = encontrar_busca_mais_recente (antes ++ depois) prefixo).
Proof.
  rewrite encontrar_um. split.
  - unfold data_do_nome.
    destruct (PyStr.startswith (get_name f) prefixo); simpl.
    + destruct (Strptime.strptime _) as [dt|]; split.
      * intros _. split; [reflexivity | exists dt; reflexivity].
      * reflexivity.
      * discriminate.
      * intros [_ [dt Hdt]]. discriminate.
    + split; [discriminate | intros [H _]; discriminate].
  - intros Hnone antes depois.
    assert (Hf : data_do_nome prefixo f = None)
      by (destruct (data_do_nome prefixo f); [discriminate | reflexivity]).
    unfold encontrar_busca_mais_recente.
    rewrite !fold_left_app. simpl. rewrite passo_sem_data by exact Hf.
    reflexivity.
Qed.

Lemma encontrar_dated_candidate_witness :
  encontrar_busca_mais_recente
    ([busca "1" "BUSCA ZPS141 - 01.03.2024"]
     ++ busca "3" "other.xlsx" :: [busca "2" "BUSCA ZPS141 - 15.03.2024"])
    BUSCA_PREFIX
  = encontrar_busca_mais_recente
      ([busca "1" "BUSCA ZPS141 - 01.03.2024"]
       ++ [busca "2" "BUSCA ZPS141 - 15.03.2024"])
      BUSCA_PREFIX.
Proof.
  apply (proj2 (encontrar_dated_candidate BUSCA_PREFIX
                  (busca "3" "other.xlsx"))).
  vm_compute. reflexivity.
Defined.

(** C4 fails as stated: with a second blank after the prefix the ten
    characters that follow the prefix are not a date, yet the file is a
    dated candidate and is selected. *)
Lemma encontrar_trims_remainder :
  spec_dated BUSCA_PREFIX (busca "4" "BUSCA ZPS141 -  01.03.2024") = false
  /\ encontrar_busca_mais_recente
       [busca "4" "BUSCA ZPS141 -  01.03.2024"] BUSCA_PREFIX
     = Some (busca "4" "BUSCA ZPS141 -  01.03.2024").
Proof. vm_compute. split; reflexivity. Qed.

(** Conversely, trimming can push an extension into the ten characters: a
    name whose ten characters after the prefix are a date is passed over. *)
Example encontrar_trims_then_cuts :
  spec_dated BUSCA_PREFIX (busca "5" "BUSCA ZPS141 -  1.03.2024.xlsx") = true
  /\ encontrar_busca_mais_recente
       [busca "5" "BUSCA ZPS141 -  1.03.2024.xlsx"] BUSCA_PREFIX
     = None.
Proof. vm_compute. split; reflexivity. Qed.

Example strptime_examples :
  Strptime.strptime "01.03.2024" = Some (mkDate 2024 3 1)
  /\ Strptime.strptime "1.3.2024" = Some (mkDate 2024 3 1)
  /\ Strptime.strptime "29.02.2024" = Some (mkDate 2024 2 29)
  /\ Strptime.strptime "29.02.2023" = None
  /\ Strptime.strptime "31.04.2024" = None
  /\ Strptime.strptime "01.03.2024." = None
  /\ Strptime.strptime "01.13.2024" = None
  /\ Strptime.strptime "01.03.0000" = None
  /\ Strptime.strptime "01-03-2024" = None.
Proof. vm_compute. repeat split; reflexivity. Qed.

(** ** The run *)

(** C8. When the BANCO sheet has fewer than 14 columns the run ends with
    the error raised by the row filter's guard, after the two downloads and
    with no upload of the BANCO. *)
Theorem main_aborts_without_column_N (drive : Drive)
    (arquivo_banco arquivo_hoje : FileDescriptor) :
  find is_banco (arquivos_da_pasta drive) = Some arquivo_banco ->
  encontrar_busca_mais_recente (arquivos_da_pasta drive) BUSCA_PREFIX
    = Some arquivo_hoje ->
  shape1 (read_excel drive (id arquivo_banco)) < 14 ->
  limpar_banco (read_excel drive (id arquivo_banco))
    = inl (RuntimeError msg_sem_coluna_N)
  /\ main drive [] =
       ([Download (id arquivo_hoje); Download (id arquivo_banco)],
        inl (RuntimeError msg_sem_coluna_N))
  /\ existsb is_upload (fst (main drive [])) = false.
Proof.
  intros Hbanco Hhoje Hw.
  assert (Hlimpar : limpar_banco (read_excel drive (id arquivo_banco))
                    = inl (RuntimeError msg_sem_coluna_N)).
  { unfold limpar_banco.
    destruct (Nat.leb_spec (shape1 (read_excel drive (id arquivo_banco))) 13);
      [reflexivity | lia]. }
  assert (Hmain : main drive [] =
            ([Download (id arquivo_hoje); Download (id arquivo_banco)],
             inl (RuntimeError msg_sem_coluna_N))).
  { unfold main. destruct (arquivos_da_pasta drive) as [|a l] eqn:Hl.
    - discriminate.
    - rewrite Hbanco, Hhoje. unfold bind, emit, lift. simpl.
      rewrite Hlimpar. reflexivity. }
  split; [exact Hlimpar|]. split; [exact Hmain|].
  rewrite Hmain. reflexivity.
Qed.

Lemma main_aborts_without_column_N_witness :
  limpar_banco (banco_de 5) = inl (RuntimeError msg_sem_coluna_N)
  /\ main (pasta_com_banco 5) [] =
       ([Download "2"; Download "0"], inl (RuntimeError msg_sem_coluna_N))
  /\ existsb is_upload (fst (main (pasta_com_banco 5) [])) = false.
Proof.
  apply (main_aborts_without_column_N (pasta_com_banco 5)
           (mkFile "0" (Some BANCO_NAME) "2024-03-14T00:00:00Z")
           (busca "2" "BUSCA ZPS141 - 15.03.2024")).
  - reflexivity.
  - vm_compute. reflexivity.
  - unfold shape1. simpl. lia.
Defined.

(** A run that passes the filter and the deduplication: its effects, in
    order. *)
Lemma main_trace (drive : Drive) (arquivo_banco arquivo_hoje : FileDescriptor)
    (limpo out : DataFrame) (removidas : nat) :
  find is_banco (arquivos_da_pasta drive) = Some arquivo_banco ->
  encontrar_busca_mais_recente (arquivos_da_pasta drive) BUSCA_PREFIX
    = Some arquivo_hoje ->
  limpar_banco (read_excel drive (id arquivo_banco)) = inr (limpo, removidas) ->
  remover_duplicatas
    (append_banco limpo
       (preparar_dados_hoje (read_excel drive (id arquivo_hoje)))) = inr out ->
  main drive [] =
    ([Download (id arquivo_hoje); Download (id arquivo_banco);
      Removidas removidas; Upload (id arquivo_banco) out; Timestamp],
     inr tt).
Proof.
  intros Hbanco Hhoje Hlimpar Hdedup. unfold main.
  destruct (arquivos_da_pasta drive) as [|a l] eqn:Hl; [discriminate|].
  rewrite Hbanco, Hhoje. unfold bind, emit, lift. simpl.
  rewrite Hlimpar. simpl. rewrite Hdedup. reflexivity.
Qed.

(** Whatever makes the run fail, nothing has been uploaded. *)
Lemma main_error_no_upload (drive : Drive) (e : Exception) :
  snd (main drive []) = inl e ->
  existsb is_upload (fst (main drive [])) = false.
Proof.
  unfold main. destruct (arquivos_da_pasta drive) as [|a l]; [reflexivity|].
  destruct (find is_banco (a :: l)) as [arquivo_banco|]; [|reflexivity].
  destruct (encontrar_busca_mais_recente (a :: l) BUSCA_PREFIX)
    as [arquivo_hoje|]; [|reflexivity].
  unfold bind, emit, lift. simpl.
  destruct (limpar_banco (read_excel drive (id arquivo_banco)))
    as [e1|[df1 n]]; [reflexivity|].
  simpl.
  destruct (remover_duplicatas _) as [e2|df2]; [reflexivity|].
  simpl. discriminate.
Qed.

(** ** Widening and appending *)

Lemma index_of_fresh (c : nat) (cs : list nat) :
  Forall (fun x => x < c) cs -> index_of c cs = None.
Proof.
  intros Hall. apply index_of_None. intros Hin.
  rewrite Forall_forall in Hall. specialize (Hall c Hin). lia.
Qed.

Lemma alargar_S (df : DataFrame) (extra : nat) :
  alargar df (S extra) =
    setitem (shape1 (alargar df extra) + extra) NA (alargar df extra).
Proof.
  unfold alargar. rewrite seq_S, fold_left_app. reflexivity.
Qed.

(** The frame after the loop. *)
Lemma alargar_frame (df : DataFrame) (extra : nat) :
  Forall (fun c => c < shape1 df) (columns df) ->
  alargar df extra =
    mkDF (columns df ++ novas (shape1 df) extra)
         (map (fun r => r ++ repeat NA extra) (values df)).
Proof.
  intros Hlab. induction extra as [|e IH].
  - unfold alargar, novas. simpl. destruct df as [cs vs]. simpl.
    rewrite app_nil_r. f_equal. rewrite <- (map_id vs) at 1.
    apply map_ext. intros r. rewrite app_nil_r. reflexivity.
  - rewrite alargar_S, IH. unfold setitem, shape1. cbn [columns values].
    rewrite index_of_fresh.
    + unfold novas. rewrite seq_S, map_app, !length_app, length_map, length_seq.
      simpl. rewrite <- app_assoc, map_map. f_equal.
      * do 3 f_equal. lia.
      * apply map_ext. intros r. rewrite <- app_assoc. f_equal.
        symmetry. apply repeat_cons.
    + unfold novas. rewrite length_app, length_map, length_seq.
      apply Forall_app. split.
      * eapply Forall_impl; [|exact Hlab]. unfold shape1. simpl. intros; lia.
      * apply Forall_forall. intros c Hc. apply in_map_iff in Hc.
        destruct Hc as [i [<- Hi]]. apply in_seq in Hi. lia.
Qed.

Lemma novas_NoDup (w extra : nat) : NoDup (seq 0 w ++ novas w extra).
Proof.
  apply NoDup_app.
  - apply seq_NoDup.
  - unfold novas. apply NoDup_map_NoDup_ForallPairs; [|apply seq_NoDup].
    intros x y _ _ Heq. lia.
  - intros c Hc Hn. apply in_seq in Hc. unfold novas in Hn.
    apply in_map_iff in Hn. destruct Hn as [i [<- _]]. lia.
Qed.

Lemma half_even (n i : nat) : n = 2 * i -> S n / 2 = n / 2.
Proof.
  intros ->. symmetry. rewrite (Nat.mul_comm 2 i), Nat.div_mul by lia.
  apply (Nat.div_unique _ 2 i 1); lia.
Qed.

Lemma half_odd (n : nat) : n mod 2 = 1 -> S n / 2 = n / 2 + 1.
Proof.
  intros H. pose proof (Nat.div_mod_eq n 2) as E. symmetry.
  apply (Nat.div_unique _ 2 _ 0); lia.
Qed.

(** Of the labels 0 .. w+n-1 of the daily block, those the widened BANCO
    lacks are the odd offsets past [w]: half of them. *)
Lemma faltantes_length (w extra n : nat) :
  n <= extra ->
  length (filter (fun c => negb (has_label (seq 0 w ++ novas w extra) c))
            (seq 0 (w + n))) = n / 2.
Proof.
  intros Hn. induction n as [|n IH].
  - rewrite Nat.add_0_r. simpl Nat.div.
    rewrite filter_present_nil; [reflexivity|].
    intros c Hc. apply in_or_app. left. exact Hc.
  - replace (w + S n) with (S (w + n)) by lia.
    rewrite seq_S, filter_app, length_app, IH by lia.
    cbn [filter Nat.add].
    destruct (has_label (seq 0 w ++ novas w extra) (w + n)) eqn:Hl;
      cbn [negb length].
    + apply has_label_In, in_app_or in Hl. destruct Hl as [Hl|Hl].
      * apply in_seq in Hl. lia.
      * unfold novas in Hl. apply in_map_iff in Hl.
        destruct Hl as [i [Hi _]].
        rewrite (half_even n i) by lia. lia.
    + assert (Hodd : n mod 2 = 1).
      { pose proof (Nat.mod_upper_bound n 2) as Hb.
        pose proof (Nat.div_mod_eq n 2) as E.
        destruct (Nat.eq_dec (n mod 2) 0) as [He|Ho]; [|lia]. exfalso.
        assert (Hin : In (w + n) (seq 0 w ++ novas w extra)).
        { apply in_or_app. right. unfold novas. apply in_map_iff.
          exists (n / 2). split; [lia | apply in_seq; lia]. }
        apply has_label_In in Hin. congruence. }
      rewrite (half_odd n Hodd). reflexivity.
Qed.

(** In a concatenation the cells of a row of the first frame stay where
    they were. *)
Lemma reindex_union_nth (cs other : list nat) (r : Row) (j : nat) :
  NoDup cs -> length r = length cs -> j < length cs ->
  nth j (reindex cs (union_columns cs other) r) NA = nth j r NA.
Proof.
  intros Hnd Hr Hj. unfold union_columns, reindex. rewrite map_app.
  fold (reindex cs cs r). rewrite reindex_id by assumption.
  apply app_nth1. lia.
Qed.

Lemma shape0_mk (cs : list nat) (v : list Row) :
  shape0 (mkDF cs v) = length v.
Proof. reflexivity. Qed.

Lemma shape1_mk (cs : list nat) (v : list Row) :
  shape1 (mkDF cs v) = length cs.
Proof. reflexivity. Qed.

Lemma shape1_relabel (n : nat) (v : list Row) : shape1 (mkDF (seq 0 n) v) = n.
Proof. unfold shape1. simpl. apply length_seq. Qed.

Lemma append_banco_eq (m d : DataFrame) :
  empty d = false ->
  append_banco m d =
    concat (if shape1 m <? shape1 d
            then alargar m (shape1 d - shape1 m) else m)
           (mkDF (seq 0 (shape1 d)) (values d)).
Proof.
  intros Hne. unfold append_banco. rewrite Hne. cbn [negb].
  rewrite !shape1_relabel. reflexivity.
Qed.

(** What the append stage does to the shape of the BANCO: the rows add up,
    the cells of the BANCO stay in place, and the width is the greater of
    the two widths plus half of the number of columns the daily block has
    in excess. *)
Lemma append_banco_shape (m d : DataFrame) :
  grid m -> rectangular d -> empty d = false ->
  shape0 (append_banco m d) = shape0 m + shape0 d
  /\ shape1 (append_banco m d)
     = Nat.max (shape1 m) (shape1 d) + (shape1 d - shape1 m) / 2
  /\ forall i r j,
       nth_error (values m) i = Some r -> j < shape1 m ->
       exists r', nth_error (values (append_banco m d)) i = Some r'
                  /\ nth j r' NA = nth j r NA.
Proof.
  intros [Hcols Hrect] Hd Hne. rewrite append_banco_eq by exact Hne.
  destruct (Nat.ltb_spec (shape1 m) (shape1 d)) as [Hlt|Hge].
  - rewrite alargar_frame
      by (rewrite Hcols; apply Forall_forall; intros c Hc;
          apply in_seq in Hc; lia).
    rewrite Hcols. unfold concat. cbn [columns values].
    rewrite shape0_mk, shape1_mk.
    split; [|split].
    + rewrite length_app, !length_map. reflexivity.
    + unfold union_columns. rewrite length_app.
      replace (seq 0 (shape1 d))
        with (seq 0 (shape1 m + (shape1 d - shape1 m)))
        by (f_equal; lia).
      rewrite faltantes_length by lia.
      unfold novas. rewrite length_app, length_map, !length_seq. lia.
    + intros i r j Hi Hj.
      assert (Hr : length r = shape1 m).
      { apply nth_error_In in Hi. unfold rectangular in Hrect.
        rewrite Forall_forall in Hrect. apply Hrect, Hi. }
      assert (Hil : i < length (values m))
        by (apply nth_error_Some; congruence).
      rewrite nth_error_app1 by (rewrite !length_map; exact Hil).
      rewrite !nth_error_map. eexists.
      split; [rewrite Hi; simpl; reflexivity|].
      rewrite reindex_union_nth.
      * apply app_nth1. lia.
      * apply novas_NoDup.
      * unfold novas.
        rewrite !length_app, length_map, !length_seq, repeat_length. lia.
      * rewrite length_app, length_seq. lia.
  - unfold concat. rewrite shape0_mk, shape1_mk.
    rewrite Hcols. cbn [columns values]. split; [|split].
    + rewrite length_app, !length_map. reflexivity.
    + unfold union_columns. rewrite filter_present_nil.
      * rewrite app_nil_r, length_seq.
        replace (shape1 d - shape1 m) with 0 by lia.
        rewrite Nat.max_l by lia. simpl. lia.
      * intros c Hc. apply in_seq in Hc. apply in_seq. lia.
    + intros i r j Hi Hj.
      assert (Hr : length r = shape1 m).
      { apply nth_error_In in Hi. unfold rectangular in Hrect.
        rewrite Forall_forall in Hrect. apply Hrect, Hi. }
      assert (Hil : i < length (values m))
        by (apply nth_error_Some; congruence).
      rewrite nth_error_app1 by (rewrite !length_map; exact Hil).
      rewrite !nth_error_map. eexists.
      split; [rewrite Hi; simpl; reflexivity|].
      apply reindex_union_nth.
      * apply seq_NoDup.
      * rewrite length_seq. exact Hr.
      * rewrite length_seq. exact Hj.
Qed.

Lemma preparar_dados_hoje_width (df_hoje : DataFrame) :
  shape1 (preparar_dados_hoje df_hoje) <= 35.
Proof.
  unfold preparar_dados_hoje, replace, iloc_block, slice, shape1.
  cbn [columns]. rewrite length_firstn. lia.
Qed.

(** The loop leaves the BANCO as wide as the daily block, so never wider
    than 35 columns when it runs. *)
Lemma alargar_width (df_banco dados_hoje : DataFrame) :
  grid df_banco -> shape1 df_banco < shape1 dados_hoje ->
  shape1 (alargar df_banco (shape1 dados_hoje - shape1 df_banco))
  = shape1 dados_hoje.
Proof.
  intros [Hcols _] Hlt. rewrite alargar_frame.
  - rewrite shape1_mk. unfold novas.
    rewrite length_app, length_map, length_seq. unfold shape1 in *. lia.
  - rewrite Hcols. apply Forall_forall. intros c Hc. apply in_seq in Hc. lia.
Qed.

(** C3 on a BANCO of 14 columns and a daily block of 16: the loop labels
    its two new columns 14 and 16, the block brings label 15, and the result
    has 17 columns, one more than the wider of the two tables; the rows add
    up and the cells of the BANCO stay in place. *)
Theorem append_banco_two_wider :
  let m := banco_de 14 in
  let d := preparar_dados_hoje (hoje_de 17) in
  shape1 m = 14 /\ shape1 d = 16 /\ shape0 d = 1
  /\ columns (alargar m 2) = seq 0 14 ++ [14; 16]
  /\ columns (append_banco m d) = seq 0 14 ++ [14; 16; 15]
  /\ shape1 (append_banco m d) = 17
  /\ Nat.max (shape1 m) (shape1 d) = 16
  /\ shape0 (append_banco m d) = shape0 m + shape0 d
  /\ map (firstn 14) (firstn 3 (values (append_banco m d))) = values m.
Proof. vm_compute. repeat split; reflexivity. Qed.

(** C10 on a BANCO of 14 columns and a daily sheet of 36: the block has 35
    columns, the loop widens the BANCO to 35 columns labelled 0..14, 16,
    18, .., 54, and the run uploads a table of 45 columns, more than 35. *)
Theorem main_uploads_45_columns :
  let drive := pasta_com_banco 14 in
  shape1 (preparar_dados_hoje (hoje_de 36)) = 35
  /\ option_map (fun r => shape1 (fst r)) 
       (match limpar_banco (banco_de 14) with
        | inr r => Some r | inl _ => None end) = Some 14
  /\ shape1 (alargar (banco_de 14) 21) = 35
  /\ snd (main drive []) = inr tt
  /\ option_map shape1 (enviado (fst (main drive []))) = Some 45
  /\ Nat.max 14 35 = 35.
Proof. vm_compute. repeat split; reflexivity. Qed.

(** ** The frames of a run are well formed *)

Lemma union_columns_NoDup (a b : list nat) :
  NoDup a -> NoDup b -> NoDup (union_columns a b).
Proof.
  intros Ha Hb. unfold union_columns. apply NoDup_app.
  - exact Ha.
  - apply NoDup_filter. exact Hb.
  - intros c Hc Hf. apply filter_In in Hf. destruct Hf as [_ Hf].
    apply has_label_In in Hc. rewrite Hc in Hf. discriminate.
Qed.

Lemma concat_wf (a b : DataFrame) :
  NoDup (columns a) -> NoDup (columns b) -> wf (concat a b).
Proof.
  intros Ha Hb. split.
  - apply union_columns_NoDup; assumption.
  - unfold rectangular, concat, shape1. cbn [columns values].
    apply Forall_app. split; apply Forall_forall; intros r Hr;
      apply in_map_iff in Hr; destruct Hr as [r0 [<- _]];
      unfold reindex; apply length_map.
Qed.

Lemma limpar_banco_grid (df out : DataFrame) (removidas : nat) :
  grid df -> limpar_banco df = inr (out, removidas) ->
  grid out /\ shape1 out = shape1 df /\ 14 <= shape1 out.
Proof.
  intros Hg Hrun. pose proof (limpar_banco_inr_width _ _ _ Hrun) as Hw.
  rewrite limpar_banco_rows in Hrun by (try apply grid_wf; assumption).
  destruct Hg as [Hcols Hrect].
  assert (Hout : out = mkDF (columns df)
                   (firstn HEADER_ROWS_BANCO (values df)
                    ++ filter spec_keep (skipn HEADER_ROWS_BANCO (values df))))
    by (inversion Hrun; reflexivity).
  subst out. unfold grid, rectangular. rewrite shape1_mk. cbn [columns values].
  fold (shape1 df). repeat split; try assumption.
  apply Forall_app. split.
  - apply Forall_firstn. exact Hrect.
  - apply Forall_filter_keep, Forall_skipn. exact Hrect.
Qed.

Lemma append_banco_wf (m d : DataFrame) :
  grid m -> wf (append_banco m d).
Proof.
  intros Hg. destruct (empty d) eqn:Hne.
  - unfold append_banco. rewrite Hne. apply grid_wf. exact Hg.
  - rewrite append_banco_eq by exact Hne. apply concat_wf.
    + destruct (shape1 m <? shape1 d).
      * destruct Hg as [Hcols _]. rewrite alargar_frame.
        -- cbn [columns]. rewrite Hcols. apply novas_NoDup.
        -- rewrite Hcols. apply Forall_forall. intros c Hc.
           apply in_seq in Hc. lia.
      * destruct Hg as [Hcols _]. rewrite Hcols. apply seq_NoDup.
    + apply seq_NoDup.
Qed.

(** Label 1 is compared, so the deduplication of a run never lacks a
    column to compare. *)
Lemma append_banco_subset (m d : DataFrame) :
  grid m -> 14 <= shape1 m -> subset_de (append_banco m d) <> [].
Proof.
  intros Hg Hw Hnil.
  assert (Hin : In 1 (columns (append_banco m d))).
  { destruct Hg as [Hcols _]. destruct (empty d) eqn:Hne.
    - unfold append_banco. rewrite Hne. cbn [negb]. rewrite Hcols.
      apply in_seq. lia.
    - rewrite append_banco_eq by exact Hne. unfold concat, union_columns.
      cbn [columns]. apply in_or_app. left.
      destruct (shape1 m <? shape1 d).
      + rewrite alargar_frame.
        * cbn [columns]. apply in_or_app. left. rewrite Hcols.
          apply in_seq. lia.
        * rewrite Hcols. apply Forall_forall. intros c Hc.
          apply in_seq in Hc. lia.
      + rewrite Hcols. apply in_seq. lia. }
  assert (Hs : In 1 (subset_de (append_banco m d))).
  { unfold subset_de. apply filter_In. split; [exact Hin | reflexivity]. }
  rewrite Hnil in Hs. destruct Hs.
Qed.

(** Deduplication returns a table whenever some column is compared. *)
Lemma remover_duplicatas_total (df : DataFrame) :
  subset_de df <> [] -> exists out, remover_duplicatas df = inr out.
Proof.
  intros Hsub. unfold remover_duplicatas.
  destruct (negb (empty (iloc_tail HEADER_ROWS_BANCO df)));
    [|eexists; reflexivity].
  unfold drop_duplicates. cbn [iloc_tail columns].
  fold (subset_de df). destruct (subset_de df); [contradiction|].
  eexists. reflexivity.
Qed.

(** ** More on the row filter *)

Lemma startswith_Y (t : string) :
  PyStr.startswith t "Y" = true <-> exists s, t = String "Y" s.
Proof.
  unfold PyStr.startswith. destruct t as [|c t].
  - split; [discriminate | intros [s Hs]; discriminate].
  - change (String.prefix "Y" (String c t))
      with (if ascii_dec "Y" c then String.prefix EmptyString t else false).
    destruct (ascii_dec "Y" c) as [<-|Hne].
    + split; [intros _; exists t; reflexivity|]. intros _.
      destruct t; reflexivity.
    + split; [discriminate|]. intros [s Hs]. congruence.
Qed.

Lemma spec_keep_Y (r : Row) :
  spec_keep r = true <-> exists s, nth 13 r NA = Text (String "Y" s).
Proof.
  unfold spec_keep. destruct (nth 13 r NA) as [|t|n]; cbn [spec_text].
  - split; [discriminate | intros [s Hs]; discriminate].
  - rewrite startswith_Y. split; intros [s Hs]; exists s; congruence.
  - rewrite of_int_not_Y. split; [discriminate | intros [s Hs]; discriminate].
Qed.

Lemma limpar_banco_out (df out : DataFrame) (removidas : nat) :
  wf df -> limpar_banco df = inr (out, removidas) ->
  out = mkDF (columns df)
          (firstn HEADER_ROWS_BANCO (values df)
           ++ filter spec_keep (skipn HEADER_ROWS_BANCO (values df)))
  /\ removidas = length (filter (fun r => negb (spec_keep r))
                           (skipn HEADER_ROWS_BANCO (values df))).
Proof.
  intros Hwf Hrun. pose proof (limpar_banco_inr_width _ _ _ Hrun) as Hw.
  rewrite limpar_banco_rows in Hrun by assumption.
  split; inversion Hrun; reflexivity.
Qed.

Lemma skipn_header_filter (v : list Row) :
  skipn HEADER_ROWS_BANCO
    (firstn HEADER_ROWS_BANCO v
     ++ filter spec_keep (skipn HEADER_ROWS_BANCO v))
  = filter spec_keep (skipn HEADER_ROWS_BANCO v).
Proof. apply skipn_header. intros ->. reflexivity. Qed.

(** The data rows the filter keeps are the data rows whose cell in column
    N is a text that begins with a capital "Y": a number, an absent cell or
    a text that begins otherwise, a small "y" included, takes the row
    out. *)
Theorem limpar_banco_keeps_Y (df out : DataFrame) (removidas : nat) :
  wf df -> limpar_banco df = inr (out, removidas) ->
  forall r,
    In r (skipn HEADER_ROWS_BANCO (values out)) <->
    In r (skipn HEADER_ROWS_BANCO (values df))
    /\ exists s, nth 13 r NA = Text (String "Y" s).
Proof.
  intros Hwf Hrun r.
  destruct (limpar_banco_out _ _ _ Hwf Hrun) as [-> _]. cbn [values].
  rewrite skipn_header_filter, filter_In, spec_keep_Y. reflexivity.
Qed.

Lemma banco_de_wf (w : nat) : wf (banco_de w).
Proof.
  apply grid_wf. split.
  - unfold banco_de, shape1. simpl. rewrite length_seq. reflexivity.
  - unfold rectangular, banco_de, shape1, linha. cbn [values columns].
    rewrite length_seq. repeat constructor; apply repeat_length.
Qed.

Lemma limpar_banco_keeps_Y_witness :
  In (linha 14 (Text "Y1"))
    (skipn HEADER_ROWS_BANCO (values (fst (spec_filter (banco_de 14)))))
  <-> In (linha 14 (Text "Y1")) (skipn HEADER_ROWS_BANCO (values (banco_de 14)))
      /\ exists s, nth 13 (linha 14 (Text "Y1")) NA = Text (String "Y" s).
Proof.
  apply (limpar_banco_keeps_Y (banco_de 14) _ (snd (spec_filter (banco_de 14)))).
  - apply banco_de_wf.
  - reflexivity.
Defined.

Lemma filter_partition_length {A : Type} (f : A -> bool) (l : list A) :
  length (filter f l) + length (filter (fun a => negb (f a)) l) = length l.
Proof.
  induction l as [|a l IH]; simpl; [reflexivity|].
  destruct (f a); simpl; lia.
Qed.

Lemma filter_filter_same {A : Type} (f : A -> bool) (l : list A) :
  filter f (filter f l) = filter f l.
Proof.
  induction l as [|a l IH]; simpl; [reflexivity|].
  destruct (f a) eqn:Hf; simpl; [rewrite Hf, IH|]; auto.
Qed.

Lemma filter_negb_filter {A : Type} (f : A -> bool) (l : list A) :
  filter (fun a => negb (f a)) (filter f l) = [].
Proof.
  induction l as [|a l IH]; simpl; [reflexivity|].
  destruct (f a) eqn:Hf; simpl; [rewrite Hf|]; auto.
Qed.

Lemma firstn_header (v l : list Row) :
  firstn HEADER_ROWS_BANCO (firstn HEADER_ROWS_BANCO v ++ l)
  = firstn HEADER_ROWS_BANCO v \/ v = [].
Proof. destruct v as [|h v]; [right; reflexivity | left; reflexivity]. Qed.

(** The filter accounts for every row: the rows it returns and the rows it
    reports as removed add up to the rows it was given; and filtering its
    own result again returns the same table and reports nothing removed. *)
Theorem limpar_banco_idempotent (df out : DataFrame) (removidas : nat) :
  wf df -> limpar_banco df = inr (out, removidas) ->
  shape0 out + removidas = shape0 df
  /\ limpar_banco out = inr (out, 0).
Proof.
  intros Hwf Hrun. pose proof (limpar_banco_inr_width _ _ _ Hrun) as Hw.
  destruct (limpar_banco_out _ _ _ Hwf Hrun) as [Hout Hrem].
  destruct Hwf as [Hnd Hrect]. split.
  - subst out removidas. unfold shape0. cbn [values].
    rewrite length_app, <- Nat.add_assoc, filter_partition_length.
    rewrite <- length_app, firstn_skipn. reflexivity.
  - assert (Hwf' : wf out).
    { subst out. split; [exact Hnd|].
      unfold rectangular. rewrite shape1_mk. cbn [values]. fold (shape1 df).
      apply Forall_app. split.
      - apply Forall_firstn. exact Hrect.
      - apply Forall_filter_keep, Forall_skipn. exact Hrect. }
    rewrite limpar_banco_rows;
      [| exact Hwf' | subst out; rewrite shape1_mk; exact Hw].
    subst out. cbn [values columns].
    rewrite skipn_header_filter, filter_filter_same, filter_negb_filter.
    destruct (values df) as [|h v]; reflexivity.
Qed.

Lemma limpar_banco_idempotent_witness :
  shape0 (fst (spec_filter (banco_de 14))) + snd (spec_filter (banco_de 14))
  = shape0 (banco_de 14)
  /\ limpar_banco (fst (spec_filter (banco_de 14)))
     = inr (fst (spec_filter (banco_de 14)), 0).
Proof.
  apply (limpar_banco_idempotent (banco_de 14)).
  - apply banco_de_wf.
  - reflexivity.
Defined.

(** ** More on deduplication *)

Section Survivors.

Variables cols subset : list nat.

Local Abbreviation chave := (key_of cols subset).

Lemma survivors_cons (seen : list (list Cell)) (r : Row) (rows : list Row) :
  survivors cols subset seen (r :: rows) =
    if existsb (key_eqb (chave r)) seen
    then survivors cols subset seen rows
    else r :: survivors cols subset (chave r :: seen) rows.
Proof.
  unfold survivors. simpl duplicated_from.
  destruct (existsb (key_eqb (chave r)) seen); reflexivity.
Qed.

(** The keys of the surviving rows are new and pairwise different. *)
Lemma survivors_keys (rows : list Row) :
  forall seen,
    NoDup (map chave (survivors cols subset seen rows))
    /\ forall r, In r (survivors cols subset seen rows) -> ~ In (chave r) seen.
Proof.
  induction rows as [|r rows IH]; intros seen.
  - split; [constructor | intros r []].
  - rewrite survivors_cons.
    destruct (existsb (key_eqb (chave r)) seen) eqn:Hseen.
    + apply IH.
    + destruct (IH (chave r :: seen)) as [Hnd Hnew]. split.
      * simpl. constructor; [|exact Hnd]. intros Hin.
        apply in_map_iff in Hin. destruct Hin as [r' [Hk Hr']].
        apply (Hnew r' Hr'). left. symmetry. exact Hk.
      * intros r' [<- | Hr'].
        -- intros Hin. apply seen_In in Hin. congruence.
        -- intros Hin. apply (Hnew r' Hr'). right. exact Hin.
Qed.

(** No key is lost: a row either repeats a key met before or has a
    surviving row with its key. *)
Lemma survivors_complete (rows : list Row) :
  forall seen r,
    In r rows ->
    In (chave r) seen
    \/ exists r', In r' (survivors cols subset seen rows)
                  /\ chave r' = chave r.
Proof.
  induction rows as [|x rows IH]; intros seen r Hr; [destruct Hr|].
  rewrite survivors_cons.
  destruct (existsb (key_eqb (chave x)) seen) eqn:Hseen.
  - destruct Hr as [<- | Hr].
    + left. apply seen_In. exact Hseen.
    + apply IH. exact Hr.
  - destruct Hr as [<- | Hr].
    + right. exists x. split; [left; reflexivity | reflexivity].
    + destruct (IH (chave x :: seen) r Hr) as [[Heq | Hin] | [r' [Hr' Hk]]].
      * right. exists x. split; [left; reflexivity | exact Heq].
      * left. exact Hin.
      * right. exists r'. split; [right; exact Hr' | exact Hk].
Qed.

Lemma survivors_subseq (rows : list Row) :
  forall seen, subseq (survivors cols subset seen rows) rows.
Proof.
  induction rows as [|x rows IH]; intros seen.
  - constructor.
  - rewrite survivors_cons.
    destruct (existsb (key_eqb (chave x)) seen).
    + apply subseq_drop, IH.
    + apply subseq_keep, IH.
Qed.

End Survivors.

Lemma subseq_refl {A : Type} (l : list A) : subseq l l.
Proof. induction l; constructor; assumption. Qed.

Lemma remover_duplicatas_out (T T' : DataFrame) :
  wf T -> remover_duplicatas T = inr T' ->
  columns T' = columns T
  /\ firstn HEADER_ROWS_BANCO (values T') = firstn HEADER_ROWS_BANCO (values T)
  /\ (skipn HEADER_ROWS_BANCO (values T')
        = survivors (columns T) (subset_de T) []
            (skipn HEADER_ROWS_BANCO (values T))
      /\ subset_de T <> []
      \/ T' = T /\ empty (iloc_tail HEADER_ROWS_BANCO T) = true).
Proof.
  intros Hwf Hrun. rewrite remover_duplicatas_rows in Hrun by exact Hwf.
  destruct (negb (empty (iloc_tail HEADER_ROWS_BANCO T))) eqn:Hne.
  - destruct (subset_de T) as [|c sub] eqn:Hsub; [discriminate|].
    assert (HT' : T' = mkDF (columns T)
               (firstn HEADER_ROWS_BANCO (values T)
                ++ survivors (columns T) (c :: sub) []
                     (skipn HEADER_ROWS_BANCO (values T))))
      by (inversion Hrun; reflexivity).
    subst T'. cbn [columns values]. split; [reflexivity|]. split.
    + destruct (values T); reflexivity.
    + left. split; [|discriminate]. apply skipn_header. intros ->. reflexivity.
  - assert (T' = T) by congruence. subst T'.
    split; [reflexivity|]. split; [reflexivity|]. right.
    split; [reflexivity|]. destruct (empty _); [reflexivity | discriminate].
Qed.

(** After deduplication no two data rows have the same identity key. *)
Theorem remover_duplicatas_keys_distinct (T T' : DataFrame) :
  wf T -> subset_de T <> [] -> remover_duplicatas T = inr T' ->
  NoDup (map (key_of (columns T') (subset_de T'))
           (skipn HEADER_ROWS_BANCO (values T'))).
Proof.
  intros Hwf Hsub Hrun.
  destruct (remover_duplicatas_out T T' Hwf Hrun)
    as [Hcols [_ [[Hdata _] | [-> Hempty]]]].
  - unfold subset_de. rewrite Hcols. fold (subset_de T). rewrite Hdata.
    apply survivors_keys.
  - unfold empty, iloc_tail, shape0, shape1 in Hempty. cbn [columns values] in Hempty.
    apply orb_true_iff in Hempty. destruct Hempty as [H0 | H0];
      apply Nat.eqb_eq in H0.
    + apply length_zero_iff_nil in H0. rewrite H0. constructor.
    + apply length_zero_iff_nil in H0. exfalso. apply Hsub.
      unfold subset_de. rewrite H0. reflexivity.
Qed.

Lemma remover_duplicatas_keys_distinct_witness :
  NoDup (map (key_of (columns banco_um_texto) (subset_de banco_um_texto))
           (skipn HEADER_ROWS_BANCO (values banco_um_texto))).
Proof.
  apply (remover_duplicatas_keys_distinct banco_um_texto banco_um_texto).
  - apply grid_wf. split; [reflexivity|].
    unfold rectangular. repeat constructor.
  - vm_compute. discriminate.
  - vm_compute. reflexivity.
Defined.

(** Deduplication leaves the columns and the header row as they are, keeps
    the data rows it keeps in their order, and loses no identity key: every
    data row of the input has a data row of the output with its key. *)
Theorem remover_duplicatas_keeps_keys (T T' : DataFrame) :
  wf T -> remover_duplicatas T = inr T' ->
  columns T' = columns T
  /\ firstn HEADER_ROWS_BANCO (values T') = firstn HEADER_ROWS_BANCO (values T)
  /\ subseq (skipn HEADER_ROWS_BANCO (values T'))
            (skipn HEADER_ROWS_BANCO (values T))
  /\ forall r,
       In r (skipn HEADER_ROWS_BANCO (values T)) ->
       exists r', In r' (skipn HEADER_ROWS_BANCO (values T'))
                  /\ key_of (columns T) (subset_de T) r'
                     = key_of (columns T) (subset_de T) r.
Proof.
  intros Hwf Hrun.
  destruct (remover_duplicatas_out T T' Hwf Hrun)
    as [Hcols [Hhead [[Hdata _] | [-> _]]]].
  - split; [exact Hcols|]. split; [exact Hhead|]. rewrite Hdata. split.
    + apply survivors_subseq.
    + intros r Hr.
      destruct (survivors_complete (columns T) (subset_de T) _ [] r Hr)
        as [[] | Hex].
      exact Hex.
  - split; [reflexivity|]. split; [reflexivity|]. split.
    + apply subseq_refl.
    + intros r Hr. exists r. split; [exact Hr | reflexivity].
Qed.

Lemma remover_duplicatas_keeps_keys_witness :
  columns (mkDF (seq 0 14)
             [linha 14 (Text "h"); Text "x" :: linha 13 (Text "Y")])
  = seq 0 14
  /\ firstn HEADER_ROWS_BANCO
       (values (mkDF (seq 0 14)
                  [linha 14 (Text "h"); Text "x" :: linha 13 (Text "Y")]))
     = [linha 14 (Text "h")]
  /\ subseq
       (skipn HEADER_ROWS_BANCO
          (values (mkDF (seq 0 14)
                     [linha 14 (Text "h"); Text "x" :: linha 13 (Text "Y")])))
       [Text "x" :: linha 13 (Text "Y"); Text "z" :: linha 13 (Text "Y")]
  /\ forall r,
       In r [Text "x" :: linha 13 (Text "Y"); Text "z" :: linha 13 (Text "Y")] ->
       exists r',
         In r' (skipn HEADER_ROWS_BANCO
                  (values (mkDF (seq 0 14)
                             [linha 14 (Text "h");
                              Text "x" :: linha 13 (Text "Y")])))
         /\ key_of (seq 0 14)
              (subset_de (mkDF (seq 0 14)
                  [linha 14 (Text "h");
                   Text "x" :: linha 13 (Text "Y");
                   Text "z" :: linha 13 (Text "Y")])) r'
            = key_of (seq 0 14)
                (subset_de (mkDF (seq 0 14)
                    [linha 14 (Text "h");
                     Text "x" :: linha 13 (Text "Y");
                     Text "z" :: linha 13 (Text "Y")])) r.
Proof.
  apply (remover_duplicatas_keeps_keys
           (mkDF (seq 0 14)
              [linha 14 (Text "h");
               Text "x" :: linha 13 (Text "Y");
               Text "z" :: linha 13 (Text "Y")])).
  - apply grid_wf. split; [reflexivity|].
    unfold rectangular. repeat constructor.
  - reflexivity.
Defined.

(** ** More on the block and on appending *)

Lemma preparar_dados_hoje_values (df_hoje : DataFrame) :
  values (preparar_dados_hoje df_hoje) =
    map (map replace_empty) (filter (existsb preenchida) (regiao df_hoje)).
Proof.
  unfold preparar_dados_hoje, replace, iloc_block, regiao. cbn [values columns].
  rewrite (boolean_index_map (fun r => negb (isna_all r))).
  rewrite filter_map_swap. f_equal. apply filter_ext.
  intros r. apply isna_all_replace.
Qed.

(** When the region B6:AJ has no row with something in it (the sheet ends
    before row 6, has one column only, or holds blank rows there) the append
    stage returns the BANCO as it is. *)
Theorem append_banco_nothing (df_banco df_hoje : DataFrame) :
  filter (existsb preenchida) (regiao df_hoje) = [] ->
  append_banco df_banco (preparar_dados_hoje df_hoje) = df_banco.
Proof.
  intros Hblank. unfold append_banco.
  assert (He : empty (preparar_dados_hoje df_hoje) = true).
  { unfold empty, shape0. rewrite preparar_dados_hoje_values, Hblank.
    reflexivity. }
  rewrite He. reflexivity.
Qed.

Lemma append_banco_nothing_witness :
  append_banco (banco_de 14)
    (preparar_dados_hoje
       (mkDF (seq 0 3) (repeat (linha 3 (Num 1)) 5
                        ++ [[Num 1; NA; Text EmptyString]])))
  = banco_de 14.
Proof.
  apply append_banco_nothing. reflexivity.
Defined.

Lemma map_const_repeat {A B : Type} (f : A -> B) (b : B) (l : list A) :
  (forall a, In a l -> f a = b) -> map f l = repeat b (length l).
Proof.
  induction l as [|a l IH]; intros H; simpl; [reflexivity|].
  rewrite H by (left; reflexivity). f_equal. apply IH.
  intros x Hx. apply H. right. exact Hx.
Qed.

(** A row of a narrower frame laid out under more labels is padded with
    absent cells at the high end. *)
Lemma reindex_pad_add (k e : nat) (r : Row) :
  length r = k ->
  reindex (seq 0 k) (seq 0 (k + e)) r = r ++ repeat NA e.
Proof.
  intros Hr. unfold reindex. rewrite seq_app, map_app. f_equal.
  - apply reindex_id; [apply seq_NoDup | rewrite length_seq; exact Hr].
  - rewrite (map_const_repeat _ NA), length_seq; [reflexivity|].
    intros c Hc. apply in_seq in Hc.
    rewrite index_of_None; [reflexivity|]. intros Hin. apply in_seq in Hin. lia.
Qed.

Lemma reindex_pad (k w : nat) (r : Row) :
  length r = k -> k <= w ->
  reindex (seq 0 k) (seq 0 w) r = r ++ repeat NA (w - k).
Proof.
  intros Hr Hk. rewrite <- (reindex_pad_add k (w - k) r Hr).
  do 2 f_equal. lia.
Qed.

Lemma rectangular_rows (df : DataFrame) (r : Row) :
  rectangular df -> In r (values df) -> length r = shape1 df.
Proof.
  unfold rectangular. rewrite Forall_forall. intros H Hr. apply H, Hr.
Qed.

(** When the daily block is not wider than the BANCO, the columns of the
    BANCO stay as they are, its rows stay as they are, and the rows of the
    block follow them, each padded with absent cells up to the width of the
    BANCO. *)
Theorem append_banco_not_wider (m d : DataFrame) :
  grid m -> rectangular d -> empty d = false -> shape1 d <= shape1 m ->
  append_banco m d =
    mkDF (columns m)
         (values m
          ++ map (fun r => r ++ repeat NA (shape1 m - shape1 d)) (values d)).
Proof.
  intros [Hcols Hrect] Hd Hne Hle. rewrite append_banco_eq by exact Hne.
  destruct (Nat.ltb_spec (shape1 m) (shape1 d)) as [Hlt|_]; [lia|].
  unfold concat. cbn [columns values]. rewrite Hcols.
  unfold union_columns. rewrite filter_present_nil
    by (intros c Hc; apply in_seq in Hc; apply in_seq; lia).
  rewrite app_nil_r. f_equal. f_equal.
  - apply map_reindex_id; [apply seq_NoDup|].
    rewrite length_seq. exact Hrect.
  - apply map_ext_in. intros r Hr. apply reindex_pad; [|exact Hle].
    apply rectangular_rows; assumption.
Qed.

Lemma hoje_de_block (w : nat) :
  rectangular (preparar_dados_hoje (hoje_de (S w)))
  /\ empty (preparar_dados_hoje (hoje_de (S (S w)))) = false.
Proof.
  split.
  - unfold rectangular. apply Forall_forall. intros r Hr.
    rewrite preparar_dados_hoje_values in Hr. apply in_map_iff in Hr.
    destruct Hr as [r0 [<- Hr0]]. apply filter_In in Hr0.
    destruct Hr0 as [Hr0 _]. unfold regiao in Hr0. apply in_map_iff in Hr0.
    destruct Hr0 as [r1 [<- Hr1]].
    assert (Hlen : length r1 = S w).
    { unfold hoje_de in Hr1. cbn [values] in Hr1.
      rewrite skipn_app, repeat_length in Hr1. simpl in Hr1.
      destruct Hr1 as [<- | []]. unfold linha. simpl.
      rewrite repeat_length. reflexivity. }
    unfold preparar_dados_hoje, replace, iloc_block, shape1, hoje_de.
    cbn [columns]. rewrite length_map. unfold slice.
    rewrite !length_firstn, !length_skipn, length_seq, Hlen. reflexivity.
  - unfold empty, shape0, shape1.
    rewrite preparar_dados_hoje_values.
    unfold preparar_dados_hoje, replace, iloc_block, regiao, hoje_de.
    cbn [columns values]. rewrite skipn_app, repeat_length. simpl skipn.
    unfold slice, linha. simpl. reflexivity.
Qed.

Lemma append_banco_not_wider_witness :
  append_banco (banco_de 14) (preparar_dados_hoje (hoje_de 3)) =
    mkDF (columns (banco_de 14))
         (values (banco_de 14)
          ++ map (fun r => r ++ repeat NA
                             (shape1 (banco_de 14)
                              - shape1 (preparar_dados_hoje (hoje_de 3))))
               (values (preparar_dados_hoje (hoje_de 3)))).
Proof.
  apply append_banco_not_wider.
  - split; [reflexivity|]. unfold rectangular. repeat constructor.
  - apply (hoje_de_block 2).
  - reflexivity.
  - vm_compute. lia.
Defined.

(** When the daily block is wider than the BANCO by exactly one column the
    widening does what it is meant to do: the result has the labels
    0, 1, ... of the block, every row of the BANCO gets one absent cell at
    the high end, and the rows of the block follow as they are. *)
Theorem append_banco_one_wider (m d : DataFrame) :
  grid m -> rectangular d -> empty d = false -> shape1 d = S (shape1 m) ->
  append_banco m d =
    mkDF (seq 0 (shape1 d)) (map (fun r => r ++ [NA]) (values m) ++ values d).
Proof.
  intros [Hcols Hrect] Hd Hne Hw. rewrite append_banco_eq by exact Hne.
  destruct (Nat.ltb_spec (shape1 m) (shape1 d)) as [_|Hge]; [|lia].
  rewrite alargar_frame
    by (rewrite Hcols; apply Forall_forall; intros c Hc;
        apply in_seq in Hc; lia).
  replace (shape1 d - shape1 m) with 1 by lia.
  assert (Hlab : columns m ++ novas (shape1 m) 1 = seq 0 (shape1 d)).
  { rewrite Hw, seq_S, Hcols. unfold novas. simpl. do 2 f_equal. lia. }
  rewrite Hlab. simpl repeat.
  apply concat_same_columns.
  - apply seq_NoDup.
  - apply Forall_forall. intros r Hr. apply in_map_iff in Hr.
    destruct Hr as [r0 [<- Hr0]].
    rewrite length_app, length_seq, (rectangular_rows m r0 Hrect Hr0).
    simpl. lia.
  - rewrite length_seq. exact Hd.
Qed.

Lemma append_banco_one_wider_witness :
  append_banco (banco_de 14) (preparar_dados_hoje (hoje_de 16)) =
    mkDF (seq 0 (shape1 (preparar_dados_hoje (hoje_de 16))))
         (map (fun r => r ++ [NA]) (values (banco_de 14))
          ++ values (preparar_dados_hoje (hoje_de 16))).
Proof.
  apply append_banco_one_wider.
  - split; [reflexivity|]. unfold rectangular. repeat constructor.
  - apply (hoje_de_block 15).
  - reflexivity.
  - reflexivity.
Defined.

(** The width of the appended table, whatever the two widths: the greater
    of the two, plus one column for every two columns the block has more
    than the BANCO; and the rows add up. *)
Theorem append_banco_width_law (m d : DataFrame) :
  grid m -> rectangular d -> empty d = false ->
  shape0 (append_banco m d) = shape0 m + shape0 d
  /\ shape1 (append_banco m d)
     = Nat.max (shape1 m) (shape1 d) + (shape1 d - shape1 m) / 2.
Proof.
  intros Hg Hd Hne.
  destruct (append_banco_shape m d Hg Hd Hne) as [H0 [H1 _]].
  split; assumption.
Qed.

Lemma append_banco_width_law_witness :
  shape0 (append_banco (banco_de 14) (preparar_dados_hoje (hoje_de 20)))
  = shape0 (banco_de 14) + shape0 (preparar_dados_hoje (hoje_de 20))
  /\ shape1 (append_banco (banco_de 14) (preparar_dados_hoje (hoje_de 20)))
     = Nat.max (shape1 (banco_de 14))
               (shape1 (preparar_dados_hoje (hoje_de 20)))
       + (shape1 (preparar_dados_hoje (hoje_de 20)) - shape1 (banco_de 14)) / 2.
Proof.
  apply append_banco_width_law.
  - split; [reflexivity|]. unfold rectangular. repeat constructor.
  - apply (hoje_de_block 19).
  - reflexivity.
Defined.

Lemma filter_length_le_all {A : Type} (f : A -> bool) (l : list A) :
  length (filter f l) <= length l.
Proof.
  induction l as [|a l IH]; simpl; [lia|]. destruct (f a); simpl; lia.
Qed.

(** The block taken from a rectangular sheet is rectangular, has the
    columns 1 to 35 of the sheet that exist, so 35 at most, and has no more
    rows than the sheet has from row 6 on. *)
Theorem preparar_dados_hoje_bounds (df_hoje : DataFrame) :
  rectangular df_hoje ->
  rectangular (preparar_dados_hoje df_hoje)
  /\ shape1 (preparar_dados_hoje df_hoje) = Nat.min 35 (shape1 df_hoje - 1)
  /\ shape0 (preparar_dados_hoje df_hoje) <= shape0 df_hoje - 5.
Proof.
  intros Hrect.
  assert (Hw : shape1 (preparar_dados_hoje df_hoje)
               = Nat.min 35 (shape1 df_hoje - 1)).
  { unfold preparar_dados_hoje, replace, iloc_block, slice, shape1.
    cbn [columns]. rewrite length_firstn, length_skipn. reflexivity. }
  split; [|split; [exact Hw|]].
  - unfold rectangular. rewrite Hw. apply Forall_forall. intros r Hr.
    rewrite preparar_dados_hoje_values in Hr. apply in_map_iff in Hr.
    destruct Hr as [r0 [<- Hr0]]. apply filter_In in Hr0.
    destruct Hr0 as [Hr0 _]. unfold regiao in Hr0. apply in_map_iff in Hr0.
    destruct Hr0 as [r1 [<- Hr1]].
    assert (Hin : In r1 (values df_hoje)).
    { rewrite <- (firstn_skipn 5 (values df_hoje)). apply in_or_app.
      right. exact Hr1. }
    rewrite length_map. unfold slice.
    rewrite length_firstn, length_skipn, (rectangular_rows _ _ Hrect Hin).
    reflexivity.
  - unfold shape0. rewrite preparar_dados_hoje_values, length_map.
    eapply Nat.le_trans; [apply filter_length_le_all|].
    unfold regiao. rewrite length_map, length_skipn. reflexivity.
Qed.

Lemma preparar_dados_hoje_bounds_witness :
  rectangular (preparar_dados_hoje (hoje_de 40))
  /\ shape1 (preparar_dados_hoje (hoje_de 40))
     = Nat.min 35 (shape1 (hoje_de 40) - 1)
  /\ shape0 (preparar_dados_hoje (hoje_de 40)) <= shape0 (hoje_de 40) - 5.
Proof.
  apply preparar_dados_hoje_bounds.
  unfold rectangular. repeat constructor.
Defined.

(** ** More on the run *)

(** With both files in the folder and a BANCO sheet of at least 14 columns
    the run cannot fail: it downloads the daily file and the BANCO, reports
    the removed rows, uploads one table to the BANCO file and only then
    writes the timestamp. *)
Theorem main_succeeds (drive : Drive)
    (arquivo_banco arquivo_hoje : FileDescriptor) :
  find is_banco (arquivos_da_pasta drive) = Some arquivo_banco ->
  encontrar_busca_mais_recente (arquivos_da_pasta drive) BUSCA_PREFIX
    = Some arquivo_hoje ->
  grid (read_excel drive (id arquivo_banco)) ->
  14 <= shape1 (read_excel drive (id arquivo_banco)) ->
  exists removidas out,
    main drive [] =
      ([Download (id arquivo_hoje); Download (id arquivo_banco);
        Removidas removidas; Upload (id arquivo_banco) out; Timestamp],
       inr tt).
Proof.
  intros Hbanco Hhoje Hgrid Hw.
  pose proof (limpar_banco_rows _ (grid_wf _ Hgrid) Hw) as Hlimpar.
  destruct (limpar_banco_grid _ _ _ Hgrid Hlimpar) as [Hg1 [_ Hw1]].
  destruct (remover_duplicatas_total _
              (append_banco_subset _
                 (preparar_dados_hoje (read_excel drive (id arquivo_hoje)))
                 Hg1 Hw1)) as [out Hout].
  eexists. exists out.
  apply (main_trace drive arquivo_banco arquivo_hoje _ out _
           Hbanco Hhoje Hlimpar Hout).
Qed.

Lemma main_succeeds_witness :
  exists removidas out,
    main (pasta_com_banco 14) [] =
      ([Download "2"; Download "0"; Removidas removidas; Upload "0" out;
        Timestamp], inr tt).
Proof.
  apply (main_succeeds (pasta_com_banco 14)
           (mkFile "0" (Some BANCO_NAME) "2024-03-14T00:00:00Z")
           (busca "2" "BUSCA ZPS141 - 15.03.2024")).
  - reflexivity.
  - vm_compute. reflexivity.
  - split; [reflexivity|]. unfold rectangular. repeat constructor.
  - unfold shape1. simpl. lia.
Defined.

(** When the folder has no file named BANCO.xlsx, or no file whose name
    carries a date after the prefix (an empty folder has neither), the run
    ends with a RuntimeError before it downloads anything. *)
Theorem main_not_found (drive : Drive) :
  find is_banco (arquivos_da_pasta drive) = None
  \/ encontrar_busca_mais_recente (arquivos_da_pasta drive) BUSCA_PREFIX = None ->
  exists msg, main drive [] = ([], inl (RuntimeError msg)).
Proof.
  intros Hnone. unfold main.
  destruct (arquivos_da_pasta drive) as [|a l]; [eexists; reflexivity|].
  destruct (find is_banco (a :: l)) as [arquivo_banco|];
    [|eexists; reflexivity].
  destruct (encontrar_busca_mais_recente (a :: l) BUSCA_PREFIX)
    as [arquivo_hoje|]; [|eexists; reflexivity].
  destruct Hnone; discriminate.
Qed.

Lemma main_not_found_witness :
  exists msg,
    main (mkDrive pasta_exemplo (fun _ => banco_de 14)) []
    = ([], inl (RuntimeError msg)).
Proof.
  apply main_not_found. left. reflexivity.
Defined.

Lemma nth_error_0_firstn {A : Type} (l l' : list A) (x : A) :
  firstn HEADER_ROWS_BANCO l' = firstn HEADER_ROWS_BANCO l ->
  nth_error l 0 = Some x -> nth_error l' 0 = Some x.
Proof.
  destruct l as [|a l]; [discriminate|]. destruct l' as [|b l'];
    simpl; intros H Hx; congruence.
Qed.

(** The header row goes through the three stages untouched: the first row
    of the table to upload has, in the columns of the BANCO, the cells of
    the first row of the BANCO. *)
Theorem header_preserved (df d limpo out : DataFrame) (removidas : nat)
    (h : Row) :
  grid df -> rectangular d ->
  limpar_banco df = inr (limpo, removidas) ->
  remover_duplicatas (append_banco limpo d) = inr out ->
  nth_error (values df) 0 = Some h ->
  exists h', nth_error (values out) 0 = Some h'
             /\ forall j, j < shape1 df -> nth j h' NA = nth j h NA.
Proof.
  intros Hgrid Hd Hlimpar Hdedup Hh.
  destruct (limpar_banco_out _ _ _ (grid_wf _ Hgrid) Hlimpar) as [Hlimpo _].
  destruct (limpar_banco_grid _ _ _ Hgrid Hlimpar) as [Hg1 [Hw1 _]].
  assert (Hh1 : nth_error (values limpo) 0 = Some h).
  { subst limpo. cbn [values]. destruct (values df); [discriminate|].
    exact Hh. }
  assert (Ha : exists h', nth_error (values (append_banco limpo d)) 0 = Some h'
                          /\ forall j, j < shape1 df ->
                                       nth j h' NA = nth j h NA).
  { destruct (empty d) eqn:Hne.
    - unfold append_banco. rewrite Hne. exists h. split; [exact Hh1 | reflexivity].
    - destruct (append_banco_shape limpo d Hg1 Hd Hne) as [_ [_ Hcells]].
      assert (H0 : 0 < shape1 df \/ shape1 df = 0) by lia.
      destruct H0 as [Hpos | Hzero].
      + destruct (Hcells 0 h 0 Hh1 ltac:(lia)) as [h' [Hh' _]].
        exists h'. split; [exact Hh'|]. intros j Hj.
        destruct (Hcells 0 h j Hh1 ltac:(lia)) as [h'' [Hh'' Hnth]].
        congruence.
      + pose proof (limpar_banco_inr_width _ _ _ Hlimpar). lia. }
  destruct Ha as [h' [Hh' Hcells]]. exists h'. split; [|exact Hcells].
  destruct (remover_duplicatas_out _ _ (append_banco_wf limpo d Hg1) Hdedup)
    as [_ [Hhead _]].
  apply (nth_error_0_firstn _ _ _ Hhead Hh').
Qed.

Lemma header_preserved_witness :
  exists h',
    nth_error
      (values (match remover_duplicatas
                       (append_banco (fst (spec_filter (banco_de 14)))
                          (preparar_dados_hoje (hoje_de 20)))
               with inr out => out | inl _ => banco_de 14 end)) 0 = Some h'
    /\ forall j, j < shape1 (banco_de 14) ->
                 nth j h' NA = nth j (linha 14 (Text "h")) NA.
Proof.
  apply (header_preserved (banco_de 14) (preparar_dados_hoje (hoje_de 20))
           (fst (spec_filter (banco_de 14))) _
           (snd (spec_filter (banco_de 14)))).
  - split; [reflexivity|]. unfold rectangular. repeat constructor.
  - apply (hoje_de_block 19).
  - reflexivity.
  - vm_compute. reflexivity.
  - reflexivity.
Defined.

(** ** More on the source selector *)

Lemma dt_gt_antisym (a b : datetime) :
  dt_gt a b = false -> dt_gt b a = false -> a = b.
Proof.
  destruct a as [y m d], b as [y' m' d']. intros H1 H2.
  assert (H : y = y' /\ m = m' /\ d = d') by dates.
  destruct H as [-> [-> ->]]. reflexivity.
Qed.

(** What the selector returns, without positions: nothing when no file is
    dated, otherwise a dated file of the listing that no dated file of the
    listing is later than. *)
Lemma encontrar_cases (arquivos : list FileDescriptor) (prefixo : string) :
  match encontrar_busca_mais_recente arquivos prefixo with
  | None => forall g, In g arquivos -> data_do_nome prefixo g = None
  | Some f =>
      exists dt, In f arquivos /\ data_do_nome prefixo f = Some dt
        /\ forall g dg, In g arquivos -> data_do_nome prefixo g = Some dg ->
                        dt_gt dg dt = false
  end.
Proof.
  pose proof (loop_achado prefixo arquivos) as Hinv.
  unfold encontrar_busca_mais_recente.
  destruct (fold_left (passo prefixo) arquivos (None, None))
    as [[f|] [dt|]]; simpl in *; try contradiction.
  - destruct Hinv as [i [Hi [Hf Hall]]]. exists dt.
    split; [apply (nth_error_In _ _ Hi)|]. split; [exact Hf|].
    intros g dg Hg Hdg. apply In_nth_error in Hg. destruct Hg as [j Hj].
    apply (Hall j g dg Hj Hdg).
  - exact Hinv.
Qed.

(** When no two files of the folder carry the same date, the file selected
    does not depend on the order in which the folder is listed. *)
Theorem encontrar_order_independent (l l' : list FileDescriptor)
    (prefixo : string) :
  Permutation l l' ->
  (forall f g d, In f l -> In g l ->
                 data_do_nome prefixo f = Some d ->
                 data_do_nome prefixo g = Some d -> f = g) ->
  encontrar_busca_mais_recente l prefixo
  = encontrar_busca_mais_recente l' prefixo.
Proof.
  intros Hperm Hdistinct.
  pose proof (encontrar_cases l prefixo) as H1.
  pose proof (encontrar_cases l' prefixo) as H2.
  destruct (encontrar_busca_mais_recente l prefixo) as [f|];
    destruct (encontrar_busca_mais_recente l' prefixo) as [f'|].
  - destruct H1 as [dt [Hf [Hdt Hmax]]]. destruct H2 as [dt' [Hf' [Hdt' Hmax']]].
    assert (Hf'l : In f' l)
      by (apply (Permutation_in _ (Permutation_sym Hperm)); exact Hf').
    assert (Hfl' : In f l') by (apply (Permutation_in _ Hperm); exact Hf).
    assert (Heq : dt' = dt).
    { apply dt_gt_antisym.
      - apply (Hmax f' dt' Hf'l Hdt').
      - apply (Hmax' f dt Hfl' Hdt). }
    subst dt'. f_equal. apply (Hdistinct f f' dt); assumption.
  - destruct H1 as [dt [Hf [Hdt _]]].
    rewrite (H2 f (Permutation_in _ Hperm Hf)) in Hdt. discriminate.
  - destruct H2 as [dt' [Hf' [Hdt' _]]].
    rewrite (H1 f' (Permutation_in _ (Permutation_sym Hperm) Hf')) in Hdt'.
    discriminate.
  - reflexivity.
Qed.

Lemma encontrar_order_independent_witness :
  encontrar_busca_mais_recente pasta_exemplo BUSCA_PREFIX
  = encontrar_busca_mais_recente
      [ busca "2" "BUSCA ZPS141 - 15.03.2024";
        busca "1" "BUSCA ZPS141 - 01.03.2024";
        busca "3" "other.xlsx" ] BUSCA_PREFIX.
Proof.
  apply encontrar_order_independent.
  - apply perm_swap.
  - intros f g d [<-|[<-|[<-|[]]]] [<-|[<-|[<-|[]]]];
      vm_compute; intros Hf Hg; congruence.
Defined.

(** ** The naming convention of the daily file *)

Lemma digit_char_cases (n : nat) :
  Strptime.digit (digit_char n) = true
  /\ Strptime.code (digit_char n) - 48 = n mod 10
  /\ PyStr.isspace (digit_char n) = false.
Proof.
  unfold digit_char.
  pose proof (Nat.mod_upper_bound n 10 ltac:(lia)) as Hb.
  destruct (n mod 10) as [|[|[|[|[|[|[|[|[|[|k]]]]]]]]]];
    try (repeat split; reflexivity). lia.
Qed.

(** The compiled format on a name written by the convention, whatever
    stands for the year pattern: the day and the month are matched as
    written and the rest goes to the year pattern. *)
Lemma format_regex_gen (rY : Strptime.Re) (d m : nat) (Y : string) :
  1 <= d <= 31 -> 1 <= m <= 12 ->
  flat_map (fun '(d, s1) =>
  flat_map (fun '(_, s2) =>
  flat_map (fun '(m, s3) =>
  flat_map (fun '(_, s4) =>
  map (fun '(y, s5) => (d, m, y, s5)) (rY s4))
    (Strptime.dot s3)) (Strptime.re_m s2)) (Strptime.dot s1))
    (Strptime.re_d (pad2 d ++ "." ++ pad2 m ++ "." ++ Y)%string)
  = (((map (fun '(y, s5) => (pad2 d, pad2 m, y, s5)) (rY Y) ++ []) ++ [])
     ++ []) ++ [].
Proof.
  intros Hd Hm.
  assert (Hd' : In d (seq 1 31)) by (apply in_seq; lia).
  assert (Hm' : In m (seq 1 12)) by (apply in_seq; lia).
  clear Hd Hm. simpl in Hd', Hm'.
  repeat (destruct Hd' as [<- | Hd']); try contradiction;
    repeat (destruct Hm' as [<- | Hm']); try contradiction;
    vm_compute; reflexivity.
Qed.

Lemma int_pad2 (n : nat) : n < 100 -> Strptime.int (pad2 n) = n.
Proof.
  intros Hn. unfold Strptime.int, pad2. cbn [Strptime.int_acc].
  destruct (digit_char_cases (n / 10)) as [Ha [Hca _]].
  destruct (digit_char_cases n) as [Hb [Hcb _]].
  rewrite Ha, Hb, Hca, Hcb.
  pose proof (Nat.div_mod_eq n 10) as E.
  assert (Hq : n / 10 < 10) by (apply Nat.Div0.div_lt_upper_bound; lia).
  rewrite (Nat.mod_small (n / 10)) by exact Hq. lia.
Qed.

Lemma int_pad4 (n : nat) :
  n <= Strptime.MAXYEAR -> Strptime.int (pad4 n) = n.
Proof.
  unfold Strptime.MAXYEAR. intros Hn.
  unfold Strptime.int, pad4. cbn [Strptime.int_acc].
  destruct (digit_char_cases (n / 1000)) as [Ha [Hca _]].
  destruct (digit_char_cases (n / 100)) as [Hb [Hcb _]].
  destruct (digit_char_cases (n / 10)) as [Hc [Hcc _]].
  destruct (digit_char_cases n) as [He [Hce _]].
  rewrite Ha, Hb, Hc, He, Hca, Hcb, Hcc, Hce.
  pose proof (Nat.div_mod_eq n 10) as E1.
  pose proof (Nat.div_mod_eq (n / 10) 10) as E2.
  pose proof (Nat.div_mod_eq (n / 100) 10) as E3.
  assert (H100 : n / 10 / 10 = n / 100) by (rewrite Nat.Div0.div_div; reflexivity).
  assert (H1000 : n / 100 / 10 = n / 1000) by (rewrite Nat.Div0.div_div; reflexivity).
  assert (Hq : n / 1000 < 10) by (apply Nat.Div0.div_lt_upper_bound; lia).
  rewrite (Nat.mod_small (n / 1000)) by exact Hq. lia.
Qed.

Lemma strptime_nome_da_data (y m d : nat) :
  1 <= d <= 31 -> 1 <= m <= 12 -> y <= Strptime.MAXYEAR ->
  Strptime.strptime (nome_da_data (mkDate y m d)) = Strptime.make_date y m d.
Proof.
  intros Hd Hm Hy. unfold Strptime.strptime, Strptime.format_regex, nome_da_data.
  cbn [year month day].
  rewrite (format_regex_gen Strptime.re_Y d m (pad4 y) Hd Hm), !app_nil_r.
  unfold pad4 at 1. unfold Strptime.re_Y.
  destruct (digit_char_cases (y / 1000)) as [Ha _].
  destruct (digit_char_cases (y / 100)) as [Hb _].
  destruct (digit_char_cases (y / 10)) as [Hc _].
  destruct (digit_char_cases y) as [He _].
  rewrite Ha, Hb, Hc, He. cbn [andb map].
  fold (pad4 y). rewrite int_pad4, !int_pad2 by lia. reflexivity.
Qed.

Lemma prefix_app (p s : string) : String.prefix p (p ++ s)%string = true.
Proof.
  induction p as [|c p IH]; simpl.
  - destruct s; reflexivity.
  - destruct (ascii_dec c c) as [_|Hne]; [exact IH | congruence].
Qed.

Lemma drop_app (p s : string) :
  PyStr.drop (String.length p) (p ++ s)%string = s.
Proof. induction p as [|c p IH]; simpl; [reflexivity | exact IH]. Qed.

Lemma rstrip_cons (c : ascii) (s : string) :
  PyStr.isspace c = false ->
  PyStr.rstrip (String c s) = String c (PyStr.rstrip s).
Proof.
  intros Hc. cbn [PyStr.rstrip]. rewrite Hc.
  destruct (PyStr.rstrip s); reflexivity.
Qed.

Lemma digit_char_not_space (n : nat) : PyStr.isspace (digit_char n) = false.
Proof. apply digit_char_cases. Qed.

Lemma make_date_Some (dt dt' : datetime) :
  Strptime.make_date (year dt) (month dt) (day dt) = Some dt' ->
  dt' = dt /\ 1 <= day dt <= 31 /\ 1 <= month dt <= 12
  /\ year dt <= Strptime.MAXYEAR.
Proof.
  unfold Strptime.make_date. destruct dt as [y m d]. cbn [year month day].
  destruct (_ && _) eqn:Hv; [|discriminate]. intros H.
  repeat (apply andb_true_iff in Hv; destruct Hv as [Hv ?]).
  repeat match goal with
         | H : (_ <=? _) = true |- _ => apply Nat.leb_le in H
         end.
  assert (Hdim : Strptime.days_in_month y m <= 31).
  { unfold Strptime.days_in_month.
    do 12 (destruct m as [|m]; [try destruct (Strptime.is_leap y); lia|]).
    lia. }
  split; [congruence|]. lia.
Qed.

(** A file named by the convention is recognised: when the name is the
    prefix, then the day, month and year of a valid date written DD.MM.AAAA,
    then anything (an extension, say), the date the selector reads in it is
    that date. *)
Theorem nome_do_dia_round_trip (prefixo sufixo : string) (dt : datetime)
    (f : FileDescriptor) :
  Strptime.make_date (year dt) (month dt) (day dt) = Some dt ->
  name f = Some (prefixo ++ nome_da_data dt ++ sufixo)%string ->
  data_do_nome prefixo f = Some dt.
Proof.
  intros Hvalid Hname.
  destruct (make_date_Some dt dt Hvalid) as [_ [Hd [Hm Hy]]].
  unfold data_do_nome, get_name, PyStr.startswith. rewrite Hname.
  rewrite prefix_app, drop_app. cbn [negb].
  destruct dt as [y m d]. cbn [year month day] in *.
  rewrite <- Hvalid. rewrite <- strptime_nome_da_data by assumption.
  f_equal. unfold PyStr.strip, nome_da_data, pad2, pad4.
  cbn [year month day append PyStr.lstrip].
  rewrite digit_char_not_space.
  rewrite !rstrip_cons by (first [apply digit_char_not_space | reflexivity]).
  reflexivity.
Qed.

Lemma nome_do_dia_round_trip_witness :
  data_do_nome BUSCA_PREFIX
    (busca "7" (BUSCA_PREFIX ++ nome_da_data (mkDate 2024 2 29) ++ ".xlsx"))
  = Some (mkDate 2024 2 29).
Proof.
  apply (nome_do_dia_round_trip BUSCA_PREFIX ".xlsx").
  - vm_compute. reflexivity.
  - reflexivity.
Defined.

(** ** Listing the folder *)

Lemma listar_loop_pages (api : Api) (tok : option string)
    (ps : list (list FileDescriptor)) :
  paginas api tok ps ->
  forall fuel acc,
    length ps <= fuel ->
    listar_loop fuel api tok acc = Some (acc ++ List.concat ps).
Proof.
  induction 1 as [tok Hend | tok t ps Htok Ht _ IH]; intros fuel acc Hfuel.
  - destruct fuel as [|fuel]; [simpl in Hfuel; lia|].
    simpl. rewrite app_nil_r.
    destruct (nextPageToken (api tok)) as [t|]; [|reflexivity].
    rewrite Hend. reflexivity.
  - destruct fuel as [|fuel]; [simpl in Hfuel; lia|].
    simpl in Hfuel. simpl. rewrite Htok, Ht.
    rewrite IH by lia. rewrite app_assoc. reflexivity.
Qed.

(** When the service answers with a chain of pages that ends (the last
    page has no next-page token, or an empty one), the listing is the files
    of all the pages, in the order of the pages, as soon as the number of
    requests allowed covers the pages. *)
Theorem listar_arquivos_pasta_pages (api : Api)
    (ps : list (list FileDescriptor)) (fuel : nat) :
  paginas api None ps -> length ps <= fuel ->
  listar_arquivos_pasta fuel api = Some (List.concat ps).
Proof.
  intros Hps Hfuel. unfold listar_arquivos_pasta.
  rewrite (listar_loop_pages api None ps Hps fuel [] Hfuel). reflexivity.
Qed.

Lemma listar_arquivos_pasta_pages_witness :
  listar_arquivos_pasta 2 api_duas_paginas =
    Some (List.concat [[busca "1" "BUSCA ZPS141 - 01.03.2024"];
                       [busca "2" "BUSCA ZPS141 - 15.03.2024"]]).
Proof.
  apply listar_arquivos_pasta_pages.
  - apply (paginas_mais api_duas_paginas None "p2"
             [[busca "2" "BUSCA ZPS141 - 15.03.2024"]]).
    + reflexivity.
    + reflexivity.
    + apply (paginas_fim api_duas_paginas (Some "p2")). exact I.
  - simpl. lia.
Defined.

(** ** Credentials *)

Lemma rstrip_truthy (c : ascii) (s : string) :
  PyStr.isspace c = false -> truthy (PyStr.rstrip (String c s)) = true.
Proof. intros Hc. rewrite rstrip_cons by exact Hc. reflexivity. Qed.

Lemma truthy_strip (s : string) :
  truthy (PyStr.strip s) = negb (so_espacos s).
Proof.
  unfold PyStr.strip. induction s as [|c s IH]; [reflexivity|].
  cbn [PyStr.lstrip so_espacos].
  destruct (PyStr.isspace c) eqn:Hc.
  - exact IH.
  - rewrite rstrip_truthy by exact Hc. reflexivity.
Qed.

(** Where the credentials come from: a variable that is unset or holds
    white space only counts as absent; the JSON secret wins over the key
    file named in the environment, which wins over a local credenciais.json;
    with none of the three the function raises its RuntimeError, and the
    values used are the trimmed ones. *)
Theorem get_credentials_sources {C : Type} (lib : Biblioteca C)
    (env : Ambiente) :
  get_credentials lib env =
    if negb (em_branco (GOOGLE_CREDENTIALS env))
    then from_service_account_info lib
           (PyStr.strip (getenv (GOOGLE_CREDENTIALS env) ""))
    else if negb (em_branco (GOOGLE_CREDENTIALS_FILE env))
    then from_service_account_file lib
           (PyStr.strip (getenv (GOOGLE_CREDENTIALS_FILE env) ""))
    else if path_exists env "credenciais.json"
    then from_service_account_file lib "credenciais.json"
    else inl (RuntimeError msg_sem_credenciais).
Proof.
  unfold get_credentials, em_branco. rewrite !truthy_strip. reflexivity.
Qed.
